(** * newparp/model/user_list.py: connection tokens and online state

    A shallow embedding of [ConnectionTokenStore] and [UserListStore] over a
    model of the Redis commands they issue.  Each Lua script and each
    redis-py pipeline of the source is written out command by command against
    one keyspace, so that the keys the code really builds (and the replies it
    really compares) decide every statement below. *)

From Stdlib Require Import ZArith String Ascii DecimalString DecimalPos DecimalZ.
From stdpp Require Import gmap strings list fin_maps.

#[local] Set Warnings "-clear-no-such-hyp".

Local Open Scope string_scope.
Local Open Scope Z_scope.

(** ** Python built-ins used by the source *)

Module Py.

(** [str(n)] for an [int]: canonical decimal, ["-"] for negatives. *)
Definition str (n : Z) : string := NilZero.string_of_int (Z.to_int n).

(** [int(s)] on an optional ["-"] followed by decimal digits, [None] for
    [ValueError].  (The blanks, ["+"] and separators that [int] also
    accepts are written nowhere by this program and are left out.) *)
Definition int (s : string) : option Z := Z.of_int <$> NilZero.int_of_string s.

(** Truthiness of a string reply: [None] and [""] are falsy. *)
Definition truthy (r : option string) : bool :=
  match r with
  | Some s => negb (String.eqb s "")
  | None => false
  end.

Inductive exn :=
| InvalidToken
| PingTimeoutException
| ResponseError
| ValueError
| IndexError.

Inductive result (A : Type) :=
| Return (a : A)
| Raise (e : exn).
Arguments Return {A} a.
Arguments Raise {A} e.

(** A list comprehension whose element expression may raise. *)
Fixpoint comprehension {A B} (f : A → result B) (l : list A) : result (list B) :=
  match l with
  | [] => Return []
  | x :: l' =>
      match f x with
      | Raise e => Raise e
      | Return y =>
          match comprehension f l' with
          | Raise e => Raise e
          | Return ys => Return (y :: ys)
          end
      end
  end.

End Py.

(** ** The Redis keyspace and the commands the source issues *)

Module Redis.

Inductive rvalue :=
| RString (s : string)
| RHash (h : gmap string string)
| RSet (s : gset string).

(** A key holds one typed value and, optionally, the seconds it has left. *)
Record entry := Entry { value : rvalue; ttl : option nat }.

Abbreviation store := (gmap string entry).

(** A command against a key of the wrong type is refused (WRONGTYPE); a Lua
    run-time error aborts the script.  Either one reaches Python as
    [ResponseError]. *)
Inductive failure := WrongType | ScriptError.

Inductive reply (A : Type) :=
| Ok (a : A)
| Err (e : failure).
Arguments Ok {A} a.
Arguments Err {A} e.

Definition GET (k : string) (st : store) : store * reply (option string) :=
  match st !! k with
  | None => (st, Ok None)
  | Some (Entry (RString s) _) => (st, Ok (Some s))
  | Some _ => (st, Err WrongType)
  end.

(** [SET] overwrites whatever the key held and clears its expiry. *)
Definition SET (k v : string) (st : store) : store * reply unit :=
  (<[k := Entry (RString v) None]> st, Ok tt).

Definition SETEX (k : string) (seconds : nat) (v : string) (st : store)
  : store * reply unit :=
  (<[k := Entry (RString v) (Some seconds)]> st, Ok tt).

Definition EXPIRE (k : string) (seconds : nat) (st : store) : store * reply nat :=
  match st !! k with
  | None => (st, Ok 0%nat)
  | Some e => (<[k := Entry (value e) (Some seconds)]> st, Ok 1%nat)
  end.

Definition EXISTS (k : string) (st : store) : store * reply nat :=
  (st, Ok (if st !! k is Some _ then 1%nat else 0%nat)).

(** [DEL k1 k2 ...]: any type; replies the number of keys removed. *)
Fixpoint DEL (ks : list string) (st : store) : store * reply nat :=
  match ks with
  | [] => (st, Ok 0%nat)
  | k :: ks' =>
      let n := if st !! k is Some _ then 1%nat else 0%nat in
      match DEL ks' (delete k st) with
      | (st', Ok m) => (st', Ok (n + m)%nat)
      | (st', Err e) => (st', Err e)
      end
  end.

Definition HGET (k f : string) (st : store) : store * reply (option string) :=
  match st !! k with
  | None => (st, Ok None)
  | Some (Entry (RHash h) _) => (st, Ok (h !! f))
  | Some _ => (st, Err WrongType)
  end.

(** [HMSET k f1 v1 f2 v2 ...]; later pairs win, the expiry is kept. *)
Definition HMSET (k : string) (fvs : list (string * string)) (st : store)
  : store * reply unit :=
  let write h := foldl (λ h fv, <[fv.1 := fv.2]> h) h fvs in
  match st !! k with
  | None => (<[k := Entry (RHash (write ∅)) None]> st, Ok tt)
  | Some (Entry (RHash h) t) => (<[k := Entry (RHash (write h)) t]> st, Ok tt)
  | Some _ => (st, Err WrongType)
  end.

(** [HSET k f v] replies 1 for a new field and 0 for an overwritten one. *)
Definition HSET (k f v : string) (st : store) : store * reply nat :=
  match st !! k with
  | None => (<[k := Entry (RHash {[f := v]}) None]> st, Ok 1%nat)
  | Some (Entry (RHash h) t) =>
      (<[k := Entry (RHash (<[f := v]> h)) t]> st,
       Ok (if h !! f is Some _ then 0%nat else 1%nat))
  | Some _ => (st, Err WrongType)
  end.

(** [HDEL k f]; a hash that loses its last field is removed with its key. *)
Definition HDEL (k f : string) (st : store) : store * reply nat :=
  match st !! k with
  | None => (st, Ok 0%nat)
  | Some (Entry (RHash h) t) =>
      match h !! f with
      | None => (st, Ok 0%nat)
      | Some _ =>
          let h' := delete f h in
          (if decide (h' = ∅) then delete k st
           else <[k := Entry (RHash h') t]> st, Ok 1%nat)
      end
  | Some _ => (st, Err WrongType)
  end.

(** Redis fixes no order for the fields of a hash or the members of a set.
    [HVALS], [HGETALL] and [SMEMBERS] reply here in the order of the map's
    keys; the statements below are about which elements a reply has, never
    about their positions. *)
Definition HVALS (k : string) (st : store) : store * reply (list string) :=
  match st !! k with
  | None => (st, Ok [])
  | Some (Entry (RHash h) _) => (st, Ok (map_to_list h).*2)
  | Some _ => (st, Err WrongType)
  end.

(** [HGETALL k] replies the flat list [f1 v1 f2 v2 ...]; the scripts read it
    two at a time ([for i = 1, #l, 2] with [l[i]] and [l[i+1]]), so it is
    kept here as the list of those (field, value) steps. *)
Definition HGETALL (k : string) (st : store)
  : store * reply (list (string * string)) :=
  match st !! k with
  | None => (st, Ok [])
  | Some (Entry (RHash h) _) => (st, Ok (map_to_list h))
  | Some _ => (st, Err WrongType)
  end.

Definition SADD (k m : string) (st : store) : store * reply nat :=
  match st !! k with
  | None => (<[k := Entry (RSet {[m]}) None]> st, Ok 1%nat)
  | Some (Entry (RSet s) t) =>
      if decide (m ∈ s) then (st, Ok 0%nat)
      else (<[k := Entry (RSet ({[m]} ∪ s)) t]> st, Ok 1%nat)
  | Some _ => (st, Err WrongType)
  end.

(** [SREM k m]; a set that loses its last member is removed with its key. *)
Definition SREM (k m : string) (st : store) : store * reply nat :=
  match st !! k with
  | None => (st, Ok 0%nat)
  | Some (Entry (RSet s) t) =>
      if decide (m ∈ s) then
        let s' := s ∖ {[m]} in
        (if decide (s' = ∅) then delete k st
         else <[k := Entry (RSet s') t]> st, Ok 1%nat)
      else (st, Ok 0%nat)
  | Some _ => (st, Err WrongType)
  end.

Definition SMEMBERS (k : string) (st : store) : store * reply (list string) :=
  match st !! k with
  | None => (st, Ok [])
  | Some (Entry (RSet s) _) => (st, Ok (elements s))
  | Some _ => (st, Err WrongType)
  end.

(** Passive expiry: after [seconds], a key whose time is used up is gone. *)
Definition elapse (seconds : nat) (st : store) : store :=
  omap (λ e,
    match ttl e with
    | None => Some e
    | Some t =>
        if decide (t ≤ seconds)%nat then None
        else Some (Entry (value e) (Some (t - seconds)%nat))
    end) st.

(** *** Lua scripts ([EVAL])

    A script threads the keyspace through its [redis.call]s; the first
    failing call aborts it, and what was written before stays written. *)
Definition script (A : Type) := store → store * reply A.

Definition ret {A} (a : A) : script A := λ st, (st, Ok a).

Definition bind {A B} (c : script A) (k : A → script B) : script B :=
  λ st, match c st with
        | (st', Ok a) => k a st'
        | (st', Err e) => (st', Err e)
        end.

Definition error {A} : script A := λ st, (st, Err ScriptError).

(** *** Frame conditions, used to state what a command leaves alone *)

(** A script never creates the key [k]. *)
Definition keeps_absent {A} (k : string) (c : script A) : Prop :=
  ∀ st, st !! k = None → (c st).1 !! k = None.

(** [st'] differs from [st] at most under the key [k]. *)
Definition same_elsewhere (k : string) (st st' : store) : Prop :=
  ∀ k', k' ≠ k → st' !! k' = st !! k'.

(** [SCAN cursor MATCH pattern] on a keyspace that no one changes meanwhile:
    the server walks the keys [count] at a time (a number of its own choosing,
    at least 1), replies those of the batch that match, and hands back the
    cursor of the next batch, or 0 after the last one. *)
Definition SCAN (count cursor : nat) (matches : string → bool) (st : store)
  : store * reply (nat * list string) :=
  let keys := (map_to_list st).*1 in
  let next := (cursor + count)%nat in
  (st, Ok (if decide (next < length keys)%nat then next else 0%nat,
           filter (λ k, matches k = true) (take count (drop cursor keys)))).

(** *** Shapes of a key, used as preconditions *)

(** [k] is unset or holds a string: [GET] and [SET] on it are accepted. *)
Definition string_or_unset (k : string) (st : store) : bool :=
  match st !! k with
  | None | Some (Entry (RString _) _) => true
  | Some _ => false
  end.

(** [k] is unset or holds a hash: [HGET], [HMSET], ... on it are accepted. *)
Definition hash_or_unset (k : string) (st : store) : bool :=
  match st !! k with
  | None | Some (Entry (RHash _) _) => true
  | Some _ => false
  end.

End Redis.

Notation "'local' x ':=' c ';;' k" := (Redis.bind c (λ x, k))
  (at level 10, x name, c at level 99, k at level 200, only parsing).
Notation "'call' c ';;' k" := (Redis.bind c (λ _, k))
  (at level 10, c at level 99, k at level 200, only parsing).

(** [redis.eval(script, 0, ...)] as redis-py sees it: a failed script raises
    [ResponseError]; its writes up to the failing call are kept. *)
Definition eval {A} (c : Redis.script A) (st : Redis.store)
  : Redis.store * Py.result A :=
  match c st with
  | (st', Redis.Ok a) => (st', Py.Return a)
  | (st', Redis.Err _) => (st', Py.Raise Py.ResponseError)
  end.

(** ** class ConnectionTokenStore *)

Module ConnectionTokenStore.
Import Redis.

Definition expire_time : nat := 10.
Definition forward_token_key (token : string) : string :=
  "connection:token:" +:+ token.
Definition reverse_token_key (user_id chat_id : string) : string :=
  "connection:user:" +:+ user_id +:+ ":" +:+ chat_id.

(** [create_connection_token_script], with [ARGV[1..4]] =
    user_id, chat_id, session_id, token.  The forward key is built from
    [ARGV[3]], as the script has it. *)
Definition create_connection_token_script (argv1 argv2 argv3 argv4 : string)
  : script unit :=
  let forward := "connection:token:" +:+ argv3 in
  let reverse := "connection:user:" +:+ argv1 +:+ ":" +:+ argv2 in
  local existing_token := GET reverse ;;
  call (match existing_token with
        | Some t => call DEL ["connection:token:" +:+ t] ;; ret tt
        | None => ret tt
        end) ;;
  call HMSET forward
       [("user_id", argv1); ("chat_id", argv2); ("session_id", argv3)] ;;
  call EXPIRE forward expire_time ;;
  call SET reverse argv4 ;;
  call EXPIRE reverse expire_time ;;
  ret tt.

(** [token] is the value drawn by [str(uuid.uuid4())]. *)
Definition create_connection_token (user_id chat_id : Z) (session_id : string)
    (token : string) (st : store) : store * Py.result string :=
  match eval (create_connection_token_script
                (Py.str user_id) (Py.str chat_id) session_id token) st with
  | (st', Py.Return _) => (st', Py.Return token)
  | (st', Py.Raise e) => (st', Py.Raise e)
  end.

(** A Lua table returned to Redis becomes an array that stops at the first
    [nil]. *)
Fixpoint lua_array (t : list (option string)) : list string :=
  match t with
  | Some x :: t' => x :: lua_array t'
  | _ => []
  end.

Section Interpreter.
(** Reading a global that was never assigned: the Lua engine of Redis
    raises an error ([globals_protection = true]); stock Lua yields
    [nil].  The statements below hold for either. *)
Variable globals_protection : bool.

(** [uuid.UUID(token)] accepts [token] (does not raise [ValueError]). *)
Variable is_uuid : string → bool.

Definition unassigned_global : script (option string) :=
  if globals_protection then error else ret None.

(** [use_connection_token_script].  The third [local chat_id] rebinds the
    name to the [session_id] field; [session_id] in the [return] is a
    global no statement assigns.  [..] on a [false] operand is a Lua
    error. *)
Definition use_connection_token_script (argv1 : string) : script (list string) :=
  local user_id := HGET ("connection:token:" +:+ argv1) "user_id" ;;
  local chat_id := HGET ("connection:token:" +:+ argv1) "chat_id" ;;
  local chat_id := HGET ("connection:token:" +:+ argv1) "session_id" ;;
  match user_id with
  | None => ret []
  | Some user_id =>
      match chat_id with
      | None => error
      | Some chat_id =>
          call DEL ["connection:token:" +:+ argv1;
                    "connection:user:" +:+ user_id +:+ ":" +:+ chat_id] ;;
          local session_id := unassigned_global ;;
          ret (lua_array [Some user_id; Some chat_id; session_id])
      end
  end.

Definition subscript (data : list string) (i : nat) : Py.result string :=
  match data !! i with
  | Some x => Py.Return x
  | None => Py.Raise Py.IndexError
  end.

Definition int_of (r : Py.result string) : Py.result Z :=
  match r with
  | Py.Return s =>
      match Py.int s with
      | Some n => Py.Return n
      | None => Py.Raise Py.ValueError
      end
  | Py.Raise e => Py.Raise e
  end.

Definition use_connection_token (token : string) (st : store)
  : store * Py.result (Z * Z * string) :=
  if is_uuid token then
    match eval (use_connection_token_script token) st with
    | (st', Py.Raise e) => (st', Py.Raise e)
    | (st', Py.Return data) =>
        match data with
        | [] => (st', Py.Raise Py.InvalidToken)
        | _ =>
            (st',
             match int_of (subscript data 0) with
             | Py.Raise e => Py.Raise e
             | Py.Return a =>
                 match int_of (subscript data 1) with
                 | Py.Raise e => Py.Raise e
                 | Py.Return b =>
                     match subscript data 2 with
                     | Py.Raise e => Py.Raise e
                     | Py.Return c => Py.Return (a, b, c)
                     end
                 end
             end)
        end
    end
  else (st, Py.Raise Py.InvalidToken).
End Interpreter.

Definition invalidate_connection_token_script (argv1 argv2 : string)
  : script unit :=
  let reverse := "connection:user:" +:+ argv1 +:+ ":" +:+ argv2 in
  local token := GET reverse ;;
  match token with
  | None => ret tt
  | Some token =>
      call DEL [reverse; "connection:token:" +:+ token] ;;
      ret tt
  end.

Definition invalidate_connection_token (user_id chat_id : Z) (st : store)
  : store * Py.result unit :=
  eval (invalidate_connection_token_script (Py.str user_id) (Py.str chat_id)) st.

End ConnectionTokenStore.

(** ** class UserListStore *)

Module UserListStore.
Import Redis.

Section Chat.
(** [self.chat_id] *)
Variable chat_id : Z.

Definition online_key : string := "chat:" +:+ Py.str chat_id +:+ ":online".
Definition session_key (socket_id : string) : string :=
  "chat:" +:+ Py.str chat_id +:+ ":online:" +:+ socket_id.
Definition typing_key : string := "chat:" +:+ Py.str chat_id +:+ ":typing".

(** [socket_join]: one MULTI/EXEC pipeline.  Every queued command runs;
    [execute()] raises if one of them was refused.  [last_online] is the
    [json.dumps] payload built from the clock. *)
Definition socket_join (socket_id session_id : string) (user_id : Z)
    (last_online : string) (st : store) : store * Py.result bool :=
  let '(st1, r0) := HVALS online_key st in
  let '(st2, r1) :=
    HSET "queue:usermeta" ("chatuser:" +:+ Py.str user_id) last_online st1 in
  let '(st3, r2) := HSET online_key socket_id (Py.str user_id) st2 in
  let '(st4, r3) := SETEX (session_key socket_id) 30 session_id st3 in
  (st4,
   match r0, r1, r2, r3 with
   | Ok result0, Ok _, Ok _, Ok _ =>
       Py.Return (negb (bool_decide (Py.str user_id ∈ result0)))
   | _, _, _, _ => Py.Raise Py.ResponseError
   end).

Definition socket_ping_script (argv1 argv2 : string) : script bool :=
  local user_id_from_chat := HGET ("chat:" +:+ argv1 +:+ ":online") argv2 ;;
  match user_id_from_chat with
  | None => ret false
  | Some _ =>
      local session_id := GET ("chat:" +:+ argv1 +:+ ":online:" +:+ argv2) ;;
      match session_id with
      | None => ret false
      | Some _ =>
          call EXPIRE ("chat:" +:+ argv1 +:+ ":online:" +:+ argv2) 30 ;;
          ret true
      end
  end.

Definition socket_ping (socket_id : string) (st : store)
  : store * Py.result unit :=
  match eval (socket_ping_script (Py.str chat_id) socket_id) st with
  | (st', Py.Return true) => (st', Py.Return tt)
  | (st', Py.Return false) => (st', Py.Raise Py.PingTimeoutException)
  | (st', Py.Raise e) => (st', Py.Raise e)
  end.

(** [socket_disconnect]: one pipeline; [user_id] is the raw reply of the
    [hget], compared with the raw [hvals] taken after the removals. *)
Definition socket_disconnect (socket_id : string) (user_number : Z)
    (st : store) : store * Py.result bool :=
  let '(st1, r0) := HGET online_key socket_id st in
  let '(st2, r1) := HDEL online_key socket_id st1 in
  let '(st3, r2) := DEL [session_key socket_id] st2 in
  let '(st4, r3) := SREM typing_key (Py.str user_number) st3 in
  let '(st5, r4) := HVALS online_key st4 in
  (st5,
   match r0, r1, r2, r3, r4 with
   | Ok user_id, Ok _, Ok _, Ok _, Ok new_user_ids =>
       if negb (Py.truthy user_id) then Py.Return false
       else Py.Return (negb (bool_decide (user_id ∈ Some <$> new_user_ids)))
   | _, _, _, _, _ => Py.Raise Py.ResponseError
   end).

(** The body of [for i = 1, #online_list, 2 do ... end] in
    [user_disconnect_script], threading [had_online_socket]. *)
Fixpoint user_disconnect_loop (argv1 argv2 : string)
    (online_list : list (string * string)) (had_online_socket : bool)
  : script bool :=
  match online_list with
  | [] => ret had_online_socket
  | (socket_id, user_id) :: rest =>
      if String.eqb user_id argv2 then
        call HDEL ("chat:" +:+ argv1 +:+ ":online") socket_id ;;
        call DEL ["chat:" +:+ argv1 +:+ ":online:" +:+ socket_id] ;;
        user_disconnect_loop argv1 argv2 rest true
      else user_disconnect_loop argv1 argv2 rest had_online_socket
  end.

Definition user_disconnect_script (argv1 argv2 argv3 : string) : script bool :=
  let had_online_socket := false in
  local online_list := HGETALL ("chat:" +:+ argv1 +:+ ":online") ;;
  match online_list with
  | [] => ret false
  | _ =>
      local had_online_socket :=
        user_disconnect_loop argv1 argv2 online_list had_online_socket ;;
      call SREM ("chat:" +:+ argv1 +:+ ":typing") argv3 ;;
      ret had_online_socket
  end.

Definition user_disconnect (user_id user_number : Z) (st : store)
  : store * Py.result bool :=
  eval (user_disconnect_script
          (Py.str chat_id) (Py.str user_id) (Py.str user_number)) st.

Definition of_reply {A} (r : store * reply A) : store * Py.result A :=
  match r with
  | (st', Ok a) => (st', Py.Return a)
  | (st', Err _) => (st', Py.Raise Py.ResponseError)
  end.

Definition user_start_typing (user_number : Z) (st : store)
  : store * Py.result bool :=
  match of_reply (SADD typing_key (Py.str user_number) st) with
  | (st', Py.Return n) => (st', Py.Return (negb (Nat.eqb n 0)))
  | (st', Py.Raise e) => (st', Py.Raise e)
  end.

Definition user_stop_typing (user_number : Z) (st : store)
  : store * Py.result bool :=
  match of_reply (SREM typing_key (Py.str user_number) st) with
  | (st', Py.Return n) => (st', Py.Return (negb (Nat.eqb n 0)))
  | (st', Py.Raise e) => (st', Py.Raise e)
  end.

Definition to_int (s : string) : Py.result Z :=
  match Py.int s with
  | Some n => Py.Return n
  | None => Py.Raise Py.ValueError
  end.

Definition user_numbers_typing (st : store) : store * Py.result (list Z) :=
  match of_reply (SMEMBERS typing_key st) with
  | (st', Py.Return members) => (st', Py.comprehension to_int members)
  | (st', Py.Raise e) => (st', Py.Raise e)
  end.

(** The loop of [inconsistent_entries_script]; [table.insert] appends. *)
Fixpoint inconsistent_entries_loop (argv1 : string)
    (online_list : list (string * string))
    (inconsistent_entries : list (string * string))
  : script (list (string * string)) :=
  match online_list with
  | [] => ret inconsistent_entries
  | (socket_id, user_id) :: rest =>
      local n := EXISTS ("chat:" +:+ argv1 +:+ ":online:" +:+ socket_id) ;;
      if Nat.eqb n 0 then
        inconsistent_entries_loop argv1 rest
          (inconsistent_entries ++ [(socket_id, user_id)])
      else inconsistent_entries_loop argv1 rest inconsistent_entries
  end.

Definition inconsistent_entries_script (argv1 : string)
  : script (list (string * string)) :=
  local online_list := HGETALL ("chat:" +:+ argv1 +:+ ":online") ;;
  match online_list with
  | [] => ret []
  | _ => inconsistent_entries_loop argv1 online_list []
  end.

Definition inconsistent_entries (st : store)
  : store * Py.result (list (string * Z)) :=
  match eval (inconsistent_entries_script (Py.str chat_id)) st with
  | (st', Py.Return entries) =>
      (st',
       Py.comprehension
         (λ p : string * string,
            match to_int p.2 with
            | Py.Return n => Py.Return (p.1, n)
            | Py.Raise e => Py.Raise e
            end) entries)
  | (st', Py.Raise e) => (st', Py.Raise e)
  end.

(** *** Views of a room's state, used to state the properties *)

(** The online map: socket id ↦ user id, as stored. *)
Definition online_map (st : store) : gmap string string :=
  match st !! online_key with
  | Some (Entry (RHash h) _) => h
  | _ => ∅
  end.

(** The typing set. *)
Definition typing_set (st : store) : gset string :=
  match st !! typing_key with
  | Some (Entry (RSet s) _) => s
  | _ => ∅
  end.

(** The liveness record of a socket, with the seconds it has left. *)
Definition liveness (st : store) (socket_id : string) : option entry :=
  st !! session_key socket_id.

(** [user_id] has at least one socket in the online map. *)
Definition online (st : store) (user_id : Z) : Prop :=
  ∃ socket_id, online_map st !! socket_id = Some (Py.str user_id).

(** What the class keeps under each of its keys: the online map is a hash
    of user ids written by [str], the typing key a set, a session key a
    string, and the metadata queue a hash. *)
Definition key_ok (k : string) (e : entry) : bool :=
  if decide (k = online_key) then
    match value e with
    | RHash h =>
        bool_decide (map_Forall (λ _ v, Py.str <$> Py.int v = Some v) h)
    | _ => false
    end
  else if decide (k = typing_key) then
    match value e with RSet _ => true | _ => false end
  else if decide (k = "queue:usermeta") then
    match value e with RHash _ => true | _ => false end
  else if String.prefix (online_key +:+ ":") k then
    match value e with RString _ => true | _ => false end
  else true.

Definition room_ok (st : store) : Prop :=
  map_Forall (λ k e, key_ok k e = true) st.

#[global] Instance room_ok_dec (st : store) : Decision (room_ok st).
Proof. unfold room_ok. apply _. Defined.

(** *** The read-only methods *)

(** [set(int(_) for _ in ...)]: the first element [int] refuses raises. *)
Definition int_set (l : list string) : Py.result (gset Z) :=
  match Py.comprehension to_int l with
  | Py.Return ns => Py.Return (list_to_set ns)
  | Py.Raise e => Py.Raise e
  end.

Definition user_ids_online (st : store) : store * Py.result (gset Z) :=
  match of_reply (HVALS online_key st) with
  | (st', Py.Return vals) => (st', int_set vals)
  | (st', Py.Raise e) => (st', Py.Raise e)
  end.

(** The loop of [session_has_open_socket_script]: the first socket whose
    session key holds [ARGV[2]] decides. *)
Fixpoint session_has_open_socket_loop (argv1 argv2 argv3 : string)
    (online_list : list (string * string)) : script bool :=
  match online_list with
  | [] => ret false
  | (socket_id, user_id) :: rest =>
      local session_id := GET ("chat:" +:+ argv1 +:+ ":online:" +:+ socket_id) ;;
      if bool_decide (session_id = Some argv2) then
        if String.eqb user_id argv3 then ret true else ret false
      else session_has_open_socket_loop argv1 argv2 argv3 rest
  end.

Definition session_has_open_socket_script (argv1 argv2 argv3 : string)
  : script bool :=
  local online_list := HGETALL ("chat:" +:+ argv1 +:+ ":online") ;;
  match online_list with
  | [] => ret false
  | _ => session_has_open_socket_loop argv1 argv2 argv3 online_list
  end.

Definition session_has_open_socket (session_id : string) (user_id : Z)
    (st : store) : store * Py.result bool :=
  eval (session_has_open_socket_script
          (Py.str chat_id) session_id (Py.str user_id)) st.

(** The session id that a socket's liveness record holds: the reply of the
    [get] on its session key. *)
Definition session_of (st : store) (socket_id : string) : option string :=
  match liveness st socket_id with
  | Some (Entry (RString v) _) => Some v
  | _ => None
  end.

(** The typing set holds user numbers written by [str]. *)
Definition typing_ok (st : store) : Prop :=
  set_Forall (λ m, Py.str <$> Py.int m = Some m) (typing_set st).

#[global] Instance typing_ok_dec (st : store) : Decision (typing_ok st).
Proof. unfold typing_ok. apply _. Defined.

(** The online map is never given an expiry by the class. *)
Definition online_kept (st : store) : Prop :=
  ∀ e, st !! online_key = Some e → ttl e = None.

End Chat.

(** *** Rooms used as concrete inputs *)

(** Chat 7 after user 42 joined on socket ["h1"]. *)
Definition room_one : store :=
  (socket_join 7 "h1" "sess-a" 42 "{}" ∅).1.

(** ... and then on a second socket, ["h2"]. *)
Definition room_two : store :=
  (socket_join 7 "h2" "sess-b" 42 "{}" room_one).1.

(** ... and then user number 3 started typing. *)
Definition room_typing : store :=
  (user_start_typing 7 3 room_two).1.

(** ... and then 30 seconds went by without a ping. *)
Definition room_stale : store := elapse 30 room_typing.

(** Chat 7 with nobody online and user number 3 typing. *)
Definition room_only_typing : store :=
  (user_start_typing 7 3 ∅).1.

(** [multi_user_ids_online]: one pipeline with an [hvals] per chat; the
    result is a generator, so each chat's [set(int(...))] is built (and may
    raise) only when that element is reached. *)
Fixpoint multi_hvals (chat_ids : list Z) (st : store)
  : store * list (reply (list string)) :=
  match chat_ids with
  | [] => (st, [])
  | chat_id :: rest =>
      let '(st1, r) := HVALS (online_key chat_id) st in
      let '(st2, rs) := multi_hvals rest st1 in
      (st2, r :: rs)
  end.

(** [pipe.execute()]: the replies, or the error of a refused command. *)
Fixpoint execute {A} (rs : list (reply A)) : Py.result (list A) :=
  match rs with
  | [] => Py.Return []
  | Ok a :: rs' =>
      match execute rs' with
      | Py.Return l => Py.Return (a :: l)
      | Py.Raise e => Py.Raise e
      end
  | Err _ :: _ => Py.Raise Py.ResponseError
  end.

(** What a consumer draws from a generator expression: the elements in
    order, up to and including the first one that raises; a generator that
    has raised is finished and yields nothing more. *)
Fixpoint generator {A} (rs : list (Py.result A)) : list (Py.result A) :=
  match rs with
  | [] => []
  | Py.Return a :: rs' => Py.Return a :: generator rs'
  | Py.Raise e :: _ => [Py.Raise e]
  end.

Definition multi_user_ids_online (chat_ids : list Z) (st : store)
  : store * Py.result (list (Py.result (gset Z))) :=
  let '(st', rs) := multi_hvals chat_ids st in
  (st',
   match execute rs with
   | Py.Return chats => Py.Return (generator (int_set <$> chats))
   | Py.Raise e => Py.Raise e
   end).

(** The glob ["chat:*:online"]. *)
Definition matches_chat_online (k : string) : bool :=
  (12 <=? String.length k)%nat
  && String.prefix "chat:" k
  && String.eqb (String.substring (String.length k - 7) 7 k) ":online".

(** [for key in keys: yield int(key[5:-7])]: the values yielded, and the
    exception that ends the generator if [int] refuses a key. *)
Fixpoint yield_ints (keys : list string) : list Z * option Py.exn :=
  match keys with
  | [] => ([], None)
  | key :: rest =>
      match Py.int (String.substring 5 (String.length key - 12) key) with
      | None => ([], Some Py.ValueError)
      | Some n => let '(ys, e) := yield_ints rest in (n :: ys, e)
      end
  end.

(** [scan_active_chats], run to its end: the [while True] loop with [fuel]
    bounding its iterations ([None] when the bound is reached). *)
Fixpoint scan_active_chats_loop (fuel count next_index : nat) (st : store)
  : option (list Z * option Py.exn) :=
  match fuel with
  | O => None
  | S fuel' =>
      match SCAN count next_index matches_chat_online st with
      | (st', Err _) => Some ([], Some Py.ResponseError)
      | (st', Ok (next_index', keys)) =>
          match yield_ints keys with
          | (ys, Some e) => Some (ys, Some e)
          | (ys, None) =>
              if Nat.eqb next_index' 0 then Some (ys, None)
              else
                match scan_active_chats_loop fuel' count next_index' st' with
                | Some (ys', e) => Some ((ys ++ ys')%list, e)
                | None => None
                end
          end
      end
  end.

Definition scan_active_chats (fuel count : nat) (st : store)
  : option (list Z * option Py.exn) :=
  scan_active_chats_loop fuel count 0 st.

End UserListStore.

(** * Proofs *)

(** ** [str] and [int] *)

Module PyFacts.

Lemma int_str (n : Z) : Py.int (Py.str n) = Some n.
Proof.
  unfold Py.int, Py.str.
  rewrite NilZero.isi.
  - simpl. f_equal. apply DecimalZ.of_to.
  - destruct n as [|p|p]; [done| |done].
    intros [= H]. by apply DecimalPos.Unsigned.to_uint_nonnil in H.
  - destruct n as [|p|p]; [done|done|].
    intros [= H]. by apply DecimalPos.Unsigned.to_uint_nonnil in H.
Qed.

Lemma str_inj (m n : Z) : Py.str m = Py.str n → m = n.
Proof.
  intros H. apply (f_equal Py.int) in H.
  rewrite !int_str in H. congruence.
Qed.

Lemma str_nonempty (n : Z) : Py.str n ≠ "".
Proof.
  intros H. pose proof (int_str n) as Hn. rewrite H in Hn. discriminate.
Qed.

Lemma truthy_str (n : Z) : Py.truthy (Some (Py.str n)) = true.
Proof.
  simpl. destruct (String.eqb_spec (Py.str n) "") as [H|]; [|done].
  by apply str_nonempty in H.
Qed.

(** A stored id that [str] wrote is read back by [int] as the same id. *)
Lemma canonical_int (v : string) :
  Py.str <$> Py.int v = Some v → ∃ n, v = Py.str n ∧ Py.int v = Some n.
Proof.
  destruct (Py.int v) as [n|] eqn:Hv; [|done].
  intros [= <-]. by exists n.
Qed.

End PyFacts.

(** ** Keys *)

Module KeyFacts.
Import UserListStore.

Lemma prefix_app (p s : string) : String.prefix p (p +:+ s) = true.
Proof.
  induction p as [|a p IH]; [by destruct s|].
  change (String a p +:+ s) with (String a (p +:+ s)). simpl.
  destruct (ascii_dec a a); [done|congruence].
Qed.

Lemma append_assoc (a b c : string) : (a +:+ b) +:+ c = a +:+ (b +:+ c).
Proof.
  induction a as [|x a IH]; [done|].
  change ((String x a +:+ b) +:+ c) with (String x ((a +:+ b) +:+ c)).
  by rewrite IH.
Qed.

Ltac cancel_prefix H :=
  repeat (apply (inj (String.app _)) in H); vm_compute in H; discriminate H.

Section Chat.
Variable chat_id : Z.

Lemma session_key_inj s s' : session_key chat_id s = session_key chat_id s' → s = s'.
Proof.
  unfold session_key. intros H.
  by repeat (apply (inj (String.app _)) in H).
Qed.

Lemma online_ne_typing : online_key chat_id ≠ typing_key chat_id.
Proof. unfold online_key, typing_key. intros H. cancel_prefix H. Qed.

Lemma session_ne_online s : session_key chat_id s ≠ online_key chat_id.
Proof. unfold online_key, session_key. intros H. cancel_prefix H. Qed.

Lemma session_ne_typing s : session_key chat_id s ≠ typing_key chat_id.
Proof. unfold typing_key, session_key. intros H. cancel_prefix H. Qed.

Lemma usermeta_ne_online : "queue:usermeta" ≠ online_key chat_id.
Proof. unfold online_key. intros H. vm_compute in H. discriminate H. Qed.

Lemma usermeta_ne_typing : "queue:usermeta" ≠ typing_key chat_id.
Proof. unfold typing_key. intros H. vm_compute in H. discriminate H. Qed.

Lemma usermeta_ne_session s : "queue:usermeta" ≠ session_key chat_id s.
Proof. unfold session_key. intros H. vm_compute in H. discriminate H. Qed.

Lemma session_prefix s :
  String.prefix (online_key chat_id +:+ ":") (session_key chat_id s) = true.
Proof.
  assert (session_key chat_id s = (online_key chat_id +:+ ":") +:+ s) as ->.
  { unfold online_key, session_key. rewrite !append_assoc. reflexivity. }
  apply prefix_app.
Qed.

End Chat.
End KeyFacts.

(** ** Commands: what they leave alone *)

Module RedisFacts.
Import Redis.

Lemma DEL_total (ks : list string) (st : store) :
  ∃ n, DEL ks st = (foldl (λ m k, delete k m) st ks, Ok n).
Proof.
  revert st. induction ks as [|k ks IH]; intros st; simpl; [by eexists|].
  destruct (IH (delete k st)) as [m ->]. by eexists.
Qed.

Lemma foldl_delete_absent (ks : list string) (st : store) (k : string) :
  st !! k = None → foldl (λ m k, delete k m) st ks !! k = None.
Proof.
  revert st. induction ks as [|k' ks IH]; intros st H; simpl; [done|].
  apply IH. rewrite lookup_delete. by case_decide.
Qed.

Lemma foldl_delete_other (ks : list string) (st : store) (k : string) :
  k ∉ ks → foldl (λ m k, delete k m) st ks !! k = st !! k.
Proof.
  revert st. induction ks as [|k' ks IH]; intros st H; simpl; [done|].
  apply not_elem_of_cons in H as [? ?].
  rewrite IH by done. by rewrite lookup_delete_ne.
Qed.

Lemma keeps_absent_ret {A} k (a : A) : keeps_absent k (ret a).
Proof. by intros st H. Qed.

Lemma keeps_absent_bind {A B} k (c : script A) (f : A → script B) :
  keeps_absent k c → (∀ a, keeps_absent k (f a)) → keeps_absent k (bind c f).
Proof.
  intros Hc Hf st H. unfold bind. specialize (Hc st H).
  destruct (c st) as [st' [a|e]]; simpl in *; [by apply Hf|done].
Qed.

Lemma keeps_absent_GET k k' : keeps_absent k (GET k').
Proof.
  intros st H. unfold GET. by destruct (st !! k') as [[[] ?]|].
Qed.

Lemma keeps_absent_DEL k ks : keeps_absent k (DEL ks).
Proof.
  intros st H. destruct (DEL_total ks st) as [n ->]. simpl.
  by apply foldl_delete_absent.
Qed.

Lemma keeps_absent_EXPIRE k k' n : keeps_absent k (EXPIRE k' n).
Proof.
  intros st H. unfold EXPIRE.
  destruct (st !! k') as [e|] eqn:He; simpl; [|done].
  rewrite lookup_insert_ne; [done|congruence].
Qed.

Lemma keeps_absent_SET k k' v : k ≠ k' → keeps_absent k (SET k' v).
Proof. intros Hk st H. simpl. by rewrite lookup_insert_ne. Qed.

Lemma keeps_absent_HMSET k k' fvs : k ≠ k' → keeps_absent k (HMSET k' fvs).
Proof.
  intros Hk st H. unfold HMSET.
  destruct (st !! k') as [[[] ?]|]; simpl; by rewrite ?lookup_insert_ne.
Qed.

End RedisFacts.

(** ** Connection tokens *)

Module TokenFacts.
Import Redis RedisFacts ConnectionTokenStore.

(** The key under which [create_connection_token] files the forward record
    is the one of the session id; no key is made for the token. *)
Lemma create_keeps_token_key_absent user_id chat_id session_id token st :
  token ≠ session_id →
  st !! forward_token_key token = None →
  (create_connection_token user_id chat_id session_id token st).1
    !! forward_token_key token = None.
Proof.
  intros Hne Hst.
  assert (keeps_absent (forward_token_key token)
            (create_connection_token_script
               (Py.str user_id) (Py.str chat_id) session_id token)) as Hk.
  { unfold create_connection_token_script.
    apply keeps_absent_bind; [apply keeps_absent_GET|]. intros existing.
    apply keeps_absent_bind.
    { destruct existing; [|apply keeps_absent_ret].
      apply keeps_absent_bind; [apply keeps_absent_DEL|].
      intros; apply keeps_absent_ret. }
    intros _. apply keeps_absent_bind.
    { apply keeps_absent_HMSET. unfold forward_token_key.
      intros H. apply (inj (String.app _)) in H. done. }
    intros _. apply keeps_absent_bind; [apply keeps_absent_EXPIRE|].
    intros _. apply keeps_absent_bind.
    { apply keeps_absent_SET. unfold forward_token_key.
      intros H. vm_compute in H. discriminate H. }
    intros _. apply keeps_absent_bind; [apply keeps_absent_EXPIRE|].
    intros; apply keeps_absent_ret. }
  specialize (Hk st Hst).
  unfold create_connection_token, eval.
  by destruct (create_connection_token_script _ _ _ _ st) as [st' [[]|e]].
Qed.

(** Redeeming a token that has no forward record. *)
Lemma use_absent gp is_uuid token st :
  st !! forward_token_key token = None →
  use_connection_token gp is_uuid token st = (st, Py.Raise Py.InvalidToken).
Proof.
  intros H. unfold use_connection_token.
  destruct (is_uuid token); [|done].
  unfold eval, use_connection_token_script, bind, HGET.
  unfold forward_token_key in H. by repeat (rewrite H; simpl).
Qed.

Lemma create_then_use_invalid gp is_uuid user_id chat_id session_id token st :
  token ≠ session_id →
  st !! forward_token_key token = None →
  (use_connection_token gp is_uuid token
     (create_connection_token user_id chat_id session_id token st).1).2
  = Py.Raise Py.InvalidToken.
Proof.
  intros Hne Hst. rewrite use_absent; [done|].
  by apply create_keeps_token_key_absent.
Qed.

(** No call of [use_connection_token] returns a tuple, whatever the
    keyspace holds. *)
Lemma use_never_returns gp is_uuid token st r :
  (use_connection_token gp is_uuid token st).2 ≠ Py.Return r.
Proof.
  unfold use_connection_token.
  destruct (is_uuid token); [|done].
  unfold eval, use_connection_token_script, bind, HGET.
  destruct (st !! ("connection:token:" +:+ token)) as [[[s|h|s] t]|] eqn:Hk;
    repeat (rewrite Hk; simpl); try done.
  destruct (h !! "user_id") as [u|]; [|done].
  destruct (h !! "session_id") as [c|]; [|done].
  unfold unassigned_global. destruct gp; simpl; [done|].
  unfold int_of, subscript; simpl.
  destruct (Py.int u); [|done]. by destruct (Py.int c).
Qed.

End TokenFacts.

(** ** Online state: the room invariant and the effect of each command *)

Module PresenceFacts.
Import Redis RedisFacts UserListStore KeyFacts.

Section Chat.
Variable chat_id : Z.

Abbreviation online_key := (online_key chat_id).
Abbreviation typing_key := (typing_key chat_id).
Abbreviation session_key := (session_key chat_id).
Abbreviation online_map := (online_map chat_id).
Abbreviation typing_set := (typing_set chat_id).
Abbreviation liveness := (liveness chat_id).
Abbreviation room_ok := (room_ok chat_id).
Abbreviation key_ok := (key_ok chat_id).
Abbreviation canonical := (map_Forall (λ (_ : string) v, Py.str <$> Py.int v = Some v)).

(** *** The invariant, key by key *)

Lemma key_ok_online e :
  key_ok online_key e = true ↔ ∃ h, value e = RHash h ∧ canonical h.
Proof.
  unfold UserListStore.key_ok. rewrite decide_True by done.
  destruct (value e) as [s|h|s]; split; try done; try (by intros (?&?&?)).
  - intros H%bool_decide_eq_true. eauto.
  - intros (? & [= <-] & ?). by apply bool_decide_eq_true.
Qed.

Lemma key_ok_typing e :
  key_ok typing_key e = true ↔ ∃ s, value e = RSet s.
Proof.
  unfold UserListStore.key_ok.
  rewrite decide_False by (intros H; symmetry in H; by apply online_ne_typing in H).
  rewrite decide_True by done.
  destruct (value e); split; try done; try (by intros [? ?]); eauto.
Qed.

Lemma key_ok_session s e :
  key_ok (session_key s) e = true ↔ ∃ v, value e = RString v.
Proof.
  unfold UserListStore.key_ok.
  rewrite decide_False by apply session_ne_online.
  rewrite decide_False by apply session_ne_typing.
  rewrite decide_False by (intros H; symmetry in H; by apply usermeta_ne_session in H).
  rewrite session_prefix.
  destruct (value e); split; try done; try (by intros [? ?]); eauto.
Qed.

Lemma key_ok_usermeta e :
  key_ok "queue:usermeta" e = true ↔ ∃ h, value e = RHash h.
Proof.
  unfold UserListStore.key_ok.
  rewrite decide_False by apply usermeta_ne_online.
  rewrite decide_False by apply usermeta_ne_typing.
  rewrite decide_True by done.
  destruct (value e); split; try done; try (by intros [? ?]); eauto.
Qed.

Lemma room_ok_empty : room_ok ∅.
Proof. apply map_Forall_empty. Qed.

Lemma room_ok_insert k e st :
  room_ok st → key_ok k e = true → room_ok (<[k := e]> st).
Proof. intros H He. by apply map_Forall_insert_2. Qed.

Lemma room_ok_delete k st : room_ok st → room_ok (delete k st).
Proof. apply map_Forall_delete. Qed.

Lemma room_ok_online st :
  room_ok st →
  st !! online_key = None ∨
  ∃ h t, st !! online_key = Some (Entry (RHash h) t) ∧ canonical h.
Proof.
  intros H. destruct (st !! online_key) as [[v t]|] eqn:Hk; [right|by left].
  apply H, key_ok_online in Hk as (h & Hv & Hh). simpl in Hv. subst. eauto.
Qed.

Lemma room_ok_typing st :
  room_ok st →
  st !! typing_key = None ∨ ∃ s t, st !! typing_key = Some (Entry (RSet s) t).
Proof.
  intros H. destruct (st !! typing_key) as [[v t]|] eqn:Hk; [right|by left].
  apply H, key_ok_typing in Hk as (s & Hv). simpl in Hv. subst. eauto.
Qed.

Lemma room_ok_session st s :
  room_ok st →
  st !! session_key s = None ∨
  ∃ v t, st !! session_key s = Some (Entry (RString v) t).
Proof.
  intros H. destruct (st !! session_key s) as [[v t]|] eqn:Hk; [right|by left].
  apply H, key_ok_session in Hk as (x & Hv). simpl in Hv. subst. eauto.
Qed.

Lemma room_ok_usermeta st :
  room_ok st →
  st !! "queue:usermeta" = None ∨
  ∃ h t, st !! "queue:usermeta" = Some (Entry (RHash h) t).
Proof.
  intros H. destruct (st !! "queue:usermeta") as [[v t]|] eqn:Hk; [right|by left].
  apply H, key_ok_usermeta in Hk as (x & Hv). simpl in Hv. subst. eauto.
Qed.

Lemma room_ok_canonical st :
  room_ok st → canonical (online_map st).
Proof.
  intros H. unfold UserListStore.online_map.
  destruct (room_ok_online st H) as [->|(h & t & -> & Hh)]; [|done].
  apply map_Forall_empty.
Qed.

(** *** Views are read off one key each *)

Lemma online_map_elsewhere k st st' :
  k ≠ online_key → same_elsewhere k st st' → online_map st' = online_map st.
Proof.
  intros Hk H. unfold UserListStore.online_map. rewrite H; [done|congruence].
Qed.

Lemma typing_set_elsewhere k st st' :
  k ≠ typing_key → same_elsewhere k st st' → typing_set st' = typing_set st.
Proof.
  intros Hk H. unfold UserListStore.typing_set. rewrite H; [done|congruence].
Qed.

Lemma liveness_elsewhere k st st' s :
  k ≠ session_key s → same_elsewhere k st st' → liveness st' s = liveness st s.
Proof.
  intros Hk H. unfold UserListStore.liveness. rewrite H; [done|congruence].
Qed.

Lemma same_elsewhere_insert k e st : same_elsewhere k st (<[k := e]> st).
Proof. intros k' Hk. by rewrite lookup_insert_ne. Qed.

Lemma same_elsewhere_delete k st : same_elsewhere k st (delete k st).
Proof. intros k' Hk. by rewrite lookup_delete_ne. Qed.

Lemma same_elsewhere_refl k st : same_elsewhere k st st.
Proof. by intros k' Hk. Qed.

(** *** Commands on the online map *)

Lemma HVALS_online st :
  room_ok st → HVALS online_key st = (st, Ok (map_to_list (online_map st)).*2).
Proof.
  intros H. unfold HVALS, UserListStore.online_map.
  destruct (room_ok_online st H) as [->|(h & t & -> & _)]; [|done].
  by rewrite map_to_list_empty.
Qed.

Lemma HGETALL_online st :
  room_ok st → HGETALL online_key st = (st, Ok (map_to_list (online_map st))).
Proof.
  intros H. unfold HGETALL, UserListStore.online_map.
  destruct (room_ok_online st H) as [->|(h & t & -> & _)]; [|done].
  by rewrite map_to_list_empty.
Qed.

Lemma HGET_online st f :
  room_ok st → HGET online_key f st = (st, Ok (online_map st !! f)).
Proof.
  intros H. unfold HGET, UserListStore.online_map.
  by destruct (room_ok_online st H) as [->|(h & t & -> & _)].
Qed.

Lemma online_map_insert st h t :
  online_map (<[online_key := Entry (RHash h) t]> st) = h.
Proof. unfold UserListStore.online_map. by rewrite lookup_insert_eq. Qed.

Lemma online_map_delete st : online_map (delete online_key st) = ∅.
Proof. unfold UserListStore.online_map. by rewrite lookup_delete_eq. Qed.

Lemma HSET_online st f user_id :
  room_ok st →
  ∃ st' n, HSET online_key f (Py.str user_id) st = (st', Ok n)
    ∧ room_ok st'
    ∧ online_map st' = <[f := Py.str user_id]> (online_map st)
    ∧ same_elsewhere online_key st st'.
Proof.
  intros H. unfold HSET.
  assert (Py.str <$> Py.int (Py.str user_id) = Some (Py.str user_id)) as Hc
    by by rewrite PyFacts.int_str.
  destruct (room_ok_online st H) as [Hk|(h & t & Hk & Hh)].
  - rewrite Hk. eexists _, _. split; [done|]. split; [|split].
    + apply room_ok_insert; [done|]. apply key_ok_online. eexists. split; [done|].
      by apply map_Forall_singleton.
    + rewrite online_map_insert. unfold UserListStore.online_map. by rewrite Hk.
    + apply same_elsewhere_insert.
  - rewrite Hk. eexists _, _. split; [done|]. split; [|split].
    + apply room_ok_insert; [done|]. apply key_ok_online. eexists. split; [done|].
      by apply map_Forall_insert_2.
    + rewrite online_map_insert. unfold UserListStore.online_map. by rewrite Hk.
    + apply same_elsewhere_insert.
Qed.

Lemma HSET_usermeta st f v :
  room_ok st →
  ∃ st' n, HSET "queue:usermeta" f v st = (st', Ok n)
    ∧ room_ok st'
    ∧ same_elsewhere "queue:usermeta" st st'.
Proof.
  intros H. unfold HSET.
  destruct (room_ok_usermeta st H) as [Hk|(h & t & Hk)]; rewrite Hk;
    eexists _, _; (split; [done|]); (split; [|apply same_elsewhere_insert]);
    (apply room_ok_insert; [done|]); apply key_ok_usermeta; by eexists.
Qed.

Lemma HDEL_online st f :
  room_ok st →
  ∃ st', HDEL online_key f st
         = (st', Ok (if online_map st !! f is Some _ then 1 else 0)%nat)
    ∧ room_ok st'
    ∧ online_map st' = delete f (online_map st)
    ∧ same_elsewhere online_key st st'.
Proof.
  intros H. unfold HDEL, UserListStore.online_map.
  destruct (room_ok_online st H) as [Hk|(h & t & Hk & Hh)]; rewrite ?Hk.
  - exists st. rewrite Hk, lookup_empty, delete_empty.
    split_and!; done.
  - destruct (h !! f) as [v|] eqn:Hf.
    + case_decide as He.
      * eexists. split; [done|]. split; [by apply room_ok_delete|].
        rewrite lookup_delete_eq, He. split; [done|apply same_elsewhere_delete].
      * eexists. split; [done|]. split; [|split].
        -- apply room_ok_insert; [done|]. apply key_ok_online.
           eexists. split; [done|]. by apply map_Forall_delete.
        -- by rewrite lookup_insert_eq.
        -- apply same_elsewhere_insert.
    + exists st. rewrite Hk. split; [done|]. split; [done|].
      split; [by rewrite delete_id|apply same_elsewhere_refl].
Qed.

(** *** Commands on a session key *)

Lemma SETEX_session st s n v :
  room_ok st → room_ok (<[session_key s := Entry (RString v) n]> st).
Proof.
  intros H. apply room_ok_insert; [done|]. apply key_ok_session. by eexists.
Qed.

Lemma DEL_one k st :
  DEL [k] st = (delete k st, Ok ((if st !! k is Some _ then 1 else 0) + 0)%nat).
Proof. done. Qed.

Lemma GET_session st s :
  room_ok st →
  GET (session_key s) st
  = (st, Ok (match liveness st s with
             | Some (Entry (RString v) _) => Some v
             | _ => None
             end)).
Proof.
  intros H. unfold GET, UserListStore.liveness.
  by destruct (room_ok_session st s H) as [->|(v & t & ->)].
Qed.

(** *** Commands on the typing set *)

Lemma typing_set_insert st s t :
  typing_set (<[typing_key := Entry (RSet s) t]> st) = s.
Proof. unfold UserListStore.typing_set. by rewrite lookup_insert_eq. Qed.

Lemma SADD_typing st m :
  room_ok st →
  ∃ st', SADD typing_key m st
         = (st', Ok (if decide (m ∈ typing_set st) then 0 else 1)%nat)
    ∧ room_ok st'
    ∧ typing_set st' = {[m]} ∪ typing_set st
    ∧ same_elsewhere typing_key st st'
    ∧ (m ∈ typing_set st → st' = st).
Proof.
  intros H. unfold SADD, UserListStore.typing_set.
  destruct (room_ok_typing st H) as [Hk|(s & t & Hk)]; rewrite ?Hk.
  - rewrite decide_False by set_solver. eexists. split; [done|].
    split; [|split; [|split]].
    + apply room_ok_insert; [done|]. apply key_ok_typing. by eexists.
    + rewrite lookup_insert_eq. set_solver.
    + apply same_elsewhere_insert.
    + set_solver.
  - destruct (decide (m ∈ s)) as [Hm|Hm].
    + exists st. rewrite Hk. split_and!; try done; set_solver.
    + eexists. split; [done|]. split; [|split; [|split]].
      * apply room_ok_insert; [done|]. apply key_ok_typing. by eexists.
      * by rewrite lookup_insert_eq.
      * apply same_elsewhere_insert.
      * done.
Qed.

Lemma SREM_typing st m :
  room_ok st →
  ∃ st', SREM typing_key m st
         = (st', Ok (if decide (m ∈ typing_set st) then 1 else 0)%nat)
    ∧ room_ok st'
    ∧ typing_set st' = typing_set st ∖ {[m]}
    ∧ same_elsewhere typing_key st st'
    ∧ (m ∉ typing_set st → st' = st).
Proof.
  intros H. unfold SREM, UserListStore.typing_set.
  destruct (room_ok_typing st H) as [Hk|(s & t & Hk)]; rewrite ?Hk.
  - exists st. rewrite Hk, decide_False by set_solver.
    split_and!; try done; set_solver.
  - destruct (decide (m ∈ s)) as [Hm|Hm].
    + case_decide as He.
      * eexists. split; [done|]. split; [by apply room_ok_delete|].
        rewrite lookup_delete_eq, He.
        split; [done|]. split; [apply same_elsewhere_delete|done].
      * eexists. split; [done|]. split; [|split; [|split]].
        -- apply room_ok_insert; [done|]. apply key_ok_typing. by eexists.
        -- by rewrite lookup_insert_eq.
        -- apply same_elsewhere_insert.
        -- done.
    + exists st. rewrite Hk. split_and!; try done; set_solver.
Qed.

(** *** The methods, one equation each *)

Lemma elem_of_vals (m : gmap string string) (v : string) :
  v ∈ (map_to_list m).*2 ↔ ∃ s, m !! s = Some v.
Proof.
  rewrite list_elem_of_fmap. split.
  - intros ([s v'] & -> & H%elem_of_map_to_list). by exists s.
  - intros [s H]. exists (s, v). split; [done|]. by apply elem_of_map_to_list.
Qed.

Lemma socket_join_eq st socket_id session_id user_id last_online :
  room_ok st →
  ∃ st', socket_join chat_id socket_id session_id user_id last_online st
         = (st', Py.Return (negb (bool_decide
                     (Py.str user_id ∈ (map_to_list (online_map st)).*2))))
    ∧ room_ok st'
    ∧ online_map st' = <[socket_id := Py.str user_id]> (online_map st)
    ∧ liveness st' socket_id = Some (Entry (RString session_id) (Some 30%nat))
    ∧ typing_set st' = typing_set st.
Proof.
  intros H. unfold socket_join. rewrite (HVALS_online st H).
  destruct (HSET_usermeta st ("chatuser:" +:+ Py.str user_id) last_online H)
    as (st2 & n2 & -> & H2 & E2).
  destruct (HSET_online st2 socket_id user_id H2) as (st3 & n3 & -> & H3 & M3 & E3).
  unfold SETEX. eexists. split; [done|]. split_and!.
  - by apply SETEX_session.
  - rewrite (online_map_elsewhere (session_key socket_id) st3);
      [|apply session_ne_online|apply same_elsewhere_insert].
    rewrite M3. f_equal.
    apply (online_map_elsewhere "queue:usermeta"); [apply usermeta_ne_online|done].
  - unfold UserListStore.liveness. by rewrite lookup_insert_eq.
  - rewrite (typing_set_elsewhere (session_key socket_id) st3);
      [|apply session_ne_typing|apply same_elsewhere_insert].
    rewrite (typing_set_elsewhere online_key st2);
      [|apply online_ne_typing|done].
    apply (typing_set_elsewhere "queue:usermeta"); [apply usermeta_ne_typing|done].
Qed.

Lemma socket_ping_eq st socket_id :
  room_ok st →
  socket_ping chat_id socket_id st
  = match online_map st !! socket_id, liveness st socket_id with
    | Some _, Some e =>
        (<[session_key socket_id := Entry (value e) (Some 30%nat)]> st, Py.Return tt)
    | _, _ => (st, Py.Raise Py.PingTimeoutException)
    end.
Proof.
  intros H. unfold socket_ping, eval, socket_ping_script, bind.
  fold online_key. fold (session_key socket_id).
  rewrite (HGET_online st socket_id H).
  destruct (online_map st !! socket_id) as [u|]; [|done].
  rewrite (GET_session st socket_id H). unfold UserListStore.liveness, EXPIRE.
  by destruct (room_ok_session st socket_id H) as [Hk|(v & t & Hk)];
    rewrite Hk; simpl; rewrite ?Hk.
Qed.

Lemma canonical_truthy st socket_id v :
  room_ok st → online_map st !! socket_id = Some v → Py.truthy (Some v) = true.
Proof.
  intros H Hv. apply (room_ok_canonical st H), PyFacts.canonical_int in Hv
    as (n & -> & _).
  apply PyFacts.truthy_str.
Qed.

Lemma socket_disconnect_eq st socket_id user_number :
  room_ok st →
  ∃ st', socket_disconnect chat_id socket_id user_number st
         = (st', Py.Return
                   match online_map st !! socket_id with
                   | Some v => negb (bool_decide (v ∈ (map_to_list (online_map st')).*2))
                   | None => false
                   end)
    ∧ room_ok st'
    ∧ online_map st' = delete socket_id (online_map st)
    ∧ typing_set st' = typing_set st ∖ {[Py.str user_number]}
    ∧ liveness st' socket_id = None
    ∧ (∀ s, s ≠ socket_id → liveness st' s = liveness st s).
Proof.
  intros H. unfold socket_disconnect. rewrite (HGET_online st socket_id H).
  destruct (HDEL_online st socket_id H) as (st2 & -> & H2 & M2 & E2).
  rewrite DEL_one.
  pose proof (room_ok_delete (session_key socket_id) st2 H2) as H3.
  destruct (SREM_typing _ (Py.str user_number) H3) as (st4 & -> & H4 & T4 & E4 & _).
  rewrite (HVALS_online st4 H4).
  assert (online_map st4 = delete socket_id (online_map st)) as M4.
  { rewrite (online_map_elsewhere typing_key (delete (session_key socket_id) st2) st4);
      [|intros E; symmetry in E; by apply online_ne_typing in E|done].
    rewrite (online_map_elsewhere (session_key socket_id) st2
               (delete (session_key socket_id) st2));
      [done|apply session_ne_online|apply same_elsewhere_delete]. }
  exists st4. split_and!; try done.
  - f_equal. destruct (online_map st !! socket_id) as [v|] eqn:Hv; [|done].
    rewrite (canonical_truthy st socket_id v H Hv). simpl. do 2 f_equal.
    apply bool_decide_ext. apply (list_elem_of_fmap_inj Some).
  - rewrite T4. f_equal.
    rewrite (typing_set_elsewhere (session_key socket_id) st2);
      [|apply session_ne_typing|apply same_elsewhere_delete].
    apply (typing_set_elsewhere online_key); [apply online_ne_typing|done].
  - unfold UserListStore.liveness. rewrite E4 by apply session_ne_typing.
    apply lookup_delete_eq.
  - intros s Hs. unfold UserListStore.liveness.
    rewrite E4 by apply session_ne_typing.
    rewrite lookup_delete_ne by (intros E; by apply session_key_inj in E).
    apply E2, session_ne_online.
Qed.

Lemma user_start_typing_eq st user_number :
  room_ok st →
  ∃ st', user_start_typing chat_id user_number st
         = (st', Py.Return (negb (bool_decide (Py.str user_number ∈ typing_set st))))
    ∧ room_ok st'
    ∧ typing_set st' = {[Py.str user_number]} ∪ typing_set st
    ∧ same_elsewhere typing_key st st'
    ∧ (Py.str user_number ∈ typing_set st → st' = st).
Proof.
  intros H. unfold user_start_typing.
  destruct (SADD_typing st (Py.str user_number) H) as (st' & -> & ? & ? & ? & ?).
  exists st'. split_and!; try done. simpl. do 2 f_equal.
  by destruct (decide _) as [Hm|Hm];
    [rewrite bool_decide_eq_true_2|rewrite bool_decide_eq_false_2].
Qed.

Lemma user_stop_typing_eq st user_number :
  room_ok st →
  ∃ st', user_stop_typing chat_id user_number st
         = (st', Py.Return (bool_decide (Py.str user_number ∈ typing_set st)))
    ∧ room_ok st'
    ∧ typing_set st' = typing_set st ∖ {[Py.str user_number]}
    ∧ same_elsewhere typing_key st st'
    ∧ (Py.str user_number ∉ typing_set st → st' = st).
Proof.
  intros H. unfold user_stop_typing.
  destruct (SREM_typing st (Py.str user_number) H) as (st' & -> & ? & ? & ? & ?).
  exists st'. split_and!; try done. simpl. do 2 f_equal.
  by destruct (decide _) as [Hm|Hm];
    [rewrite bool_decide_eq_true_2|rewrite bool_decide_eq_false_2].
Qed.

(** *** [inconsistent_entries] *)

Lemma inconsistent_entries_loop_eq l acc st :
  inconsistent_entries_loop (Py.str chat_id) l acc st
  = (st, Ok (acc ++ filter (λ p, liveness st p.1 = None) l)%list).
Proof.
  revert acc. induction l as [|[s u] l IH]; intros acc; simpl.
  - by rewrite app_nil_r.
  - unfold bind, EXISTS. fold (session_key s). rewrite filter_cons. simpl.
    destruct (decide (liveness st s = None)) as [Hs|Hs];
      unfold UserListStore.liveness in Hs.
    + rewrite Hs. simpl. rewrite IH. by rewrite <- app_assoc.
    + destruct (st !! session_key s) eqn:E; [|done]. simpl. apply IH.
Qed.

Lemma inconsistent_entries_script_eq st :
  room_ok st →
  inconsistent_entries_script (Py.str chat_id) st
  = (st, Ok (filter (λ p, liveness st p.1 = None) (map_to_list (online_map st)))).
Proof.
  intros H. unfold inconsistent_entries_script, bind. fold online_key.
  rewrite (HGETALL_online st H).
  destruct (map_to_list (online_map st)) as [|p l] eqn:Hl; [done|].
  by rewrite inconsistent_entries_loop_eq.
Qed.

Lemma inconsistent_entries_frame st : (inconsistent_entries chat_id st).1 = st.
Proof.
  unfold inconsistent_entries, eval, inconsistent_entries_script, bind, HGETALL.
  destruct (st !! _) as [[[s|h|s] t]|]; try done.
  destruct (map_to_list h) as [|p l]; [done|].
  by rewrite inconsistent_entries_loop_eq.
Qed.

Lemma comprehension_canonical (l : list (string * string)) :
  Forall (λ p, Py.str <$> Py.int p.2 = Some p.2) l →
  ∃ l' : list (string * Z),
    Py.comprehension
      (λ p : string * string,
         match to_int p.2 with
         | Py.Return n => Py.Return (p.1, n)
         | Py.Raise e => Py.Raise e
         end) l = Py.Return l'
    ∧ l = (λ q, (q.1, Py.str q.2)) <$> l'.
Proof.
  induction 1 as [|[s v] l Hv _ (l' & IH & Hl)]; simpl; [by exists []|].
  apply PyFacts.canonical_int in Hv as (n & Hn & Hi). simpl in *.
  rewrite IH. unfold to_int. rewrite Hi. exists ((s, n) :: l').
  split; [done|]. rewrite fmap_cons. simpl. by rewrite <- Hn, <- Hl.
Qed.

Lemma inconsistent_entries_eq st :
  room_ok st →
  ∃ l, inconsistent_entries chat_id st = (st, Py.Return l)
    ∧ NoDup l
    ∧ ∀ s n, (s, n) ∈ l ↔
        online_map st !! s = Some (Py.str n) ∧ liveness st s = None.
Proof.
  intros H. unfold inconsistent_entries, eval.
  rewrite (inconsistent_entries_script_eq st H).
  set (found := filter _ _).
  destruct (comprehension_canonical found) as (l & -> & Hl).
  { apply Forall_forall. intros [s v] [_ Hin%elem_of_map_to_list]%list_elem_of_filter.
    by apply (room_ok_canonical st H) in Hin. }
  exists l. split; [done|]. split.
  - apply (NoDup_fmap_1 (λ q : string * Z, (q.1, Py.str q.2))). rewrite <- Hl.
    apply NoDup_filter, NoDup_map_to_list.
  - intros s n.
    assert ((s, n) ∈ l ↔ (s, Py.str n) ∈ found) as ->.
    { rewrite Hl, list_elem_of_fmap. split.
      - intros Hin. by exists (s, n).
      - intros ([s' n'] & [= -> E] & Hin). by apply PyFacts.str_inj in E as ->. }
    unfold found. rewrite list_elem_of_filter, elem_of_map_to_list. simpl. tauto.
Qed.

(** *** [user_disconnect] *)

Lemma purge_lookup (u : string) (l : list (string * string)) (m : gmap string string) s :
  foldl (λ m p, if String.eqb p.2 u then delete p.1 m else m) m l !! s
  = if decide ((s, u) ∈ l) then None else m !! s.
Proof.
  revert m. induction l as [|[s' v] l IH]; intros m; simpl.
  - done.
  - rewrite IH. clear IH.
    destruct (decide ((s, u) ∈ l)) as [Hin|Hin];
      destruct (decide ((s, u) ∈ (s', v) :: l)) as [Hin'|Hin'];
      rewrite elem_of_cons in Hin';
      destruct (String.eqb_spec v u) as [->|Hv]; try done; try naive_solver.
    + destruct Hin' as [[= ->]|?]; [apply lookup_delete_eq|done].
    + apply lookup_delete_ne. intros ->. apply Hin'. by left.
Qed.

Lemma user_disconnect_loop_eq (u : string) l : ∀ st had,
  room_ok st →
  ∃ st', user_disconnect_loop (Py.str chat_id) u l had st
         = (st', Ok (had || existsb (λ p, String.eqb p.2 u) l))
    ∧ room_ok st'
    ∧ online_map st'
      = foldl (λ m p, if String.eqb p.2 u then delete p.1 m else m) (online_map st) l
    ∧ typing_set st' = typing_set st
    ∧ st' !! typing_key = st !! typing_key
    ∧ ∀ s, liveness st' s = if decide ((s, u) ∈ l) then None else liveness st s.
Proof.
  induction l as [|[s v] l IH]; intros st had H; simpl.
  - exists st. by rewrite orb_false_r.
  - destruct (String.eqb_spec v u) as [->|Hv].
    + unfold bind at 1. fold online_key.
      destruct (HDEL_online st s H) as (st2 & -> & H2 & M2 & E2).
      unfold bind at 1. fold (session_key s).
      pose proof (room_ok_delete (session_key s) st2 H2) as H3.
      destruct (IH _ true H3) as (st' & -> & H' & M' & T' & K' & L').
      exists st'. simpl. rewrite orb_true_r. split_and!; try done.
      * rewrite M'. f_equal. rewrite <- M2.
        apply (online_map_elsewhere (session_key s));
          [apply session_ne_online|apply same_elsewhere_delete].
      * rewrite T'.
        rewrite (typing_set_elsewhere (session_key s) st2);
          [|apply session_ne_typing|apply same_elsewhere_delete].
        apply (typing_set_elsewhere online_key); [apply online_ne_typing|done].
      * rewrite K'. rewrite lookup_delete_ne by apply session_ne_typing.
        apply E2. intros E. symmetry in E. by apply online_ne_typing in E.
      * intros s0. rewrite L'. unfold UserListStore.liveness.
        destruct (decide ((s0, u) ∈ l)) as [Hin|Hin];
          destruct (decide ((s0, u) ∈ (s, u) :: l)) as [Hin'|Hin'];
          rewrite elem_of_cons in Hin'; try done; try naive_solver.
        -- destruct Hin' as [[= ->]|?]; [apply lookup_delete_eq|done].
        -- rewrite lookup_delete_ne.
           ++ apply E2, session_ne_online.
           ++ intros ->%session_key_inj. apply Hin'. by left.
    + destruct (IH st had H) as (st' & -> & H' & M' & T' & K' & L').
      exists st'. split_and!; try done.
      intros s0. rewrite L'.
      destruct (decide ((s0, u) ∈ l)) as [Hin|Hin];
        destruct (decide ((s0, u) ∈ (s, v) :: l)) as [Hin'|Hin'];
        rewrite elem_of_cons in Hin'; try done; naive_solver.
Qed.

(** With nobody in the online map the script returns before its [srem]. *)
Lemma user_disconnect_empty st user_id user_number :
  room_ok st → online_map st = ∅ →
  user_disconnect chat_id user_id user_number st = (st, Py.Return false).
Proof.
  intros H He. unfold user_disconnect, eval, user_disconnect_script, bind.
  fold online_key. rewrite (HGETALL_online st H), He.
  by rewrite map_to_list_empty.
Qed.

(** With somebody in the online map the script does all of its work. *)
Lemma user_disconnect_nonempty st user_id user_number :
  room_ok st → online_map st ≠ ∅ →
  ∃ st' b, user_disconnect chat_id user_id user_number st = (st', Py.Return b)
    ∧ room_ok st'
    ∧ (b = true ↔ ∃ s, online_map st !! s = Some (Py.str user_id))
    ∧ (∀ s, online_map st' !! s
            = if decide (online_map st !! s = Some (Py.str user_id))
              then None else online_map st !! s)
    ∧ (∀ s, liveness st' s
            = if decide (online_map st !! s = Some (Py.str user_id))
              then None else liveness st s)
    ∧ typing_set st' = typing_set st ∖ {[Py.str user_number]}.
Proof.
  intros H Hne. unfold user_disconnect, eval, user_disconnect_script, bind.
  fold online_key. rewrite (HGETALL_online st H).
  destruct (map_to_list (online_map st)) as [|p l] eqn:Hl.
  { by apply map_to_list_empty_iff in Hl. }
  rewrite <- Hl. clear p l Hl.
  destruct (user_disconnect_loop_eq (Py.str user_id) (map_to_list (online_map st))
              st false H) as (st2 & -> & H2 & M2 & T2 & _ & L2).
  fold typing_key.
  destruct (SREM_typing st2 (Py.str user_number) H2) as (st3 & -> & H3 & T3 & E3 & _).
  assert (∀ s, (s, Py.str user_id) ∈ map_to_list (online_map st)
               ↔ online_map st !! s = Some (Py.str user_id)) as Hin
    by (intros s; apply elem_of_map_to_list).
  exists st3, (existsb (λ p, String.eqb p.2 (Py.str user_id))
                 (map_to_list (online_map st))).
  split; [done|]. split; [done|]. split_and!.
  - rewrite existsb_exists. split.
    + intros ([s v] & Hp%list_elem_of_In & Hv%String.eqb_eq). simpl in Hv. subst v.
      exists s. by apply Hin.
    + intros [s Hs]. exists (s, Py.str user_id). split.
      * by apply list_elem_of_In, Hin.
      * apply String.eqb_refl.
  - intros s.
    rewrite (online_map_elsewhere typing_key st2 st3);
      [|intros E; symmetry in E; by apply online_ne_typing in E|done].
    rewrite M2, purge_lookup.
    destruct (decide ((s, Py.str user_id) ∈ map_to_list (online_map st))) as [Hs|Hs];
      destruct (decide (online_map st !! s = Some (Py.str user_id))) as [Hs'|Hs'];
      try done; by rewrite Hin in Hs.
  - intros s. unfold UserListStore.liveness.
    rewrite E3 by apply session_ne_typing. fold (liveness st2 s). rewrite L2.
    destruct (decide ((s, Py.str user_id) ∈ map_to_list (online_map st))) as [Hs|Hs];
      destruct (decide (online_map st !! s = Some (Py.str user_id))) as [Hs'|Hs'];
      try done; by rewrite Hin in Hs.
  - by rewrite T3, T2.
Qed.

(** *** The invariant is kept by every method and by the passing of time *)

Lemma socket_ping_room_ok st socket_id :
  room_ok st → room_ok (socket_ping chat_id socket_id st).1.
Proof.
  intros H. rewrite (socket_ping_eq st socket_id H).
  destruct (online_map st !! socket_id) as [u|]; [|done].
  unfold UserListStore.liveness.
  destruct (room_ok_session st socket_id H) as [->|(v & t & ->)]; [done|].
  simpl. by apply SETEX_session.
Qed.

Lemma elapse_room_ok n st : room_ok st → room_ok (elapse n st).
Proof.
  intros H k e. unfold elapse. rewrite lookup_omap_Some.
  intros (e0 & He & Hk). apply H in Hk.
  destruct (ttl e0) as [t|] eqn:Ht; [|by simplify_eq].
  destruct (decide (t ≤ n)%nat); [done|]. simplify_eq.
  revert Hk. unfold UserListStore.key_ok. by destruct e0.
Qed.

Lemma room_ok_invariant st :
  room_ok st →
  (∀ socket_id session_id user_id last_online,
     room_ok (socket_join chat_id socket_id session_id user_id last_online st).1)
  ∧ (∀ socket_id, room_ok (socket_ping chat_id socket_id st).1)
  ∧ (∀ socket_id user_number,
       room_ok (socket_disconnect chat_id socket_id user_number st).1)
  ∧ (∀ user_id user_number, room_ok (user_disconnect chat_id user_id user_number st).1)
  ∧ (∀ user_number, room_ok (user_start_typing chat_id user_number st).1)
  ∧ (∀ user_number, room_ok (user_stop_typing chat_id user_number st).1)
  ∧ room_ok (inconsistent_entries chat_id st).1
  ∧ (∀ seconds, room_ok (elapse seconds st)).
Proof.
  intros H. split_and!.
  - intros socket_id session_id user_id last_online.
    by destruct (socket_join_eq st socket_id session_id user_id last_online H)
      as (st' & -> & ? & _).
  - intros socket_id. by apply socket_ping_room_ok.
  - intros socket_id user_number.
    by destruct (socket_disconnect_eq st socket_id user_number H)
      as (st' & -> & ? & _).
  - intros user_id user_number.
    destruct (decide (online_map st = ∅)) as [He|Hne].
    + by rewrite user_disconnect_empty.
    + by destruct (user_disconnect_nonempty st user_id user_number H Hne)
        as (st' & b & -> & ? & _).
  - intros user_number.
    by destruct (user_start_typing_eq st user_number H) as (st' & -> & ? & _).
  - intros user_number.
    by destruct (user_stop_typing_eq st user_number H) as (st' & -> & ? & _).
  - by rewrite inconsistent_entries_frame.
  - intros seconds. by apply elapse_room_ok.
Qed.

End Chat.
End PresenceFacts.

(** * The properties of the specification *)

Import Redis ConnectionTokenStore UserListStore.

(** ** Token exchange *)

(** C1 (round trip of the token exchange).  The specification says that a
    token returned by [create_connection_token(user_id, chat_id, session_id)]
    redeems to [(user_id, chat_id, session_id)].  The code does not do that: at
    user 5, chat 9, session ["s1"], on an empty keyspace, the call returns the
    token, but the forward record is filed under the session id
    (["connection:token:s1"]), no key exists for the token, and redeeming the
    token at once raises [InvalidToken]. *)
Theorem create_then_use_raises_invalid_token (globals_protection : bool)
    (is_uuid : string → bool) :
  let token := "0b6e2d6c-3f0a-4c52-9d55-7e1f4a2b8c11" in
  let created := create_connection_token 5 9 "s1" token ∅ in
  created.2 = Py.Return token
  ∧ created.1 !! forward_token_key token = None
  ∧ (∃ h t, created.1 !! forward_token_key "s1" = Some (Entry (RHash h) t)
            ∧ h !! "user_id" = Some "5" ∧ h !! "chat_id" = Some "9"
            ∧ h !! "session_id" = Some "s1")
  ∧ (use_connection_token globals_protection is_uuid token created.1).2
    = Py.Raise Py.InvalidToken.
Proof.
  intros token created. split_and!.
  - by vm_compute.
  - by vm_compute.
  - eexists _, _. split_and!; by vm_compute.
  - apply TokenFacts.create_then_use_invalid; by vm_compute.
Qed.

(** C3 (exactly-once redemption).  The specification says that the first
    redemption of a token succeeds and the second raises [InvalidToken].  In
    the code no redemption succeeds: whatever the keyspace holds and whatever
    the token, [use_connection_token] raises.  When the forward record exists
    the script deletes it and then fails on its [return] (it reads a global
    that no statement assigns); when it does not, the method raises
    [InvalidToken]. *)
Theorem use_connection_token_never_returns (globals_protection : bool)
    (is_uuid : string → bool) (token : string) (st : store) (r : Z * Z * string) :
  (use_connection_token globals_protection is_uuid token st).2 ≠ Py.Return r.
Proof. apply TokenFacts.use_never_returns. Qed.

(** A record that a redemption finds: the forward record that
    [create_connection_token] files under a session id shaped like a UUID.
    Redeeming that string removes the forward record, leaves the reverse
    record of the pair in place, and raises. *)
Example use_connection_token_on_a_found_record (is_uuid : string → bool) :
  let session_id := "0b6e2d6c-3f0a-4c52-9d55-7e1f4a2b8c11" in
  let token := "5d1c9a77-20e4-4b8e-8f3a-c2f6d0a4e9b3" in
  let st := (create_connection_token 5 9 session_id token ∅).1 in
  is_uuid session_id = true →
  let used := use_connection_token true is_uuid session_id st in
  is_Some (st !! forward_token_key session_id)
  ∧ used.2 = Py.Raise Py.ResponseError
  ∧ used.1 !! forward_token_key session_id = None
  ∧ used.1 !! reverse_token_key "5" "9" = Some (Entry (RString token) (Some 10%nat))
  ∧ (use_connection_token false is_uuid session_id st).2 = Py.Raise Py.ValueError.
Proof.
  intros session_id token st Hu used. unfold used, use_connection_token. rewrite Hu.
  split_and!; try by vm_compute.
  by eexists; vm_compute.
Qed.

(** ** Presence registry *)

(** C4 (join change signal).  In a room whose keys hold what the class writes,
    [socket_join] returns [True] exactly when [user_id] had no socket in the
    online map before the call, i.e. on the step from zero to one sockets; the
    socket is then the user's only one, and every later join of the same user,
    on any socket, returns [False]. *)
Theorem socket_join_changed (chat_id : Z) (st : store)
    (socket_id session_id : string) (user_id : Z) (last_online : string) :
  room_ok chat_id st →
  ∃ st' b,
    socket_join chat_id socket_id session_id user_id last_online st
    = (st', Py.Return b)
    ∧ (b = true ↔ ¬ online chat_id st user_id)
    ∧ online_map chat_id st' = <[socket_id := Py.str user_id]> (online_map chat_id st)
    ∧ liveness chat_id st' socket_id
      = Some (Entry (RString session_id) (Some 30%nat))
    ∧ (b = true →
       ∀ s, online_map chat_id st' !! s = Some (Py.str user_id) ↔ s = socket_id)
    ∧ (∀ socket_id' session_id' last_online',
         (socket_join chat_id socket_id' session_id' user_id last_online' st').2
         = Py.Return false).
Proof.
  intros H.
  destruct (PresenceFacts.socket_join_eq chat_id st socket_id session_id user_id
              last_online H) as (st' & E & H' & M' & L' & _).
  assert (∀ st0, bool_decide
            (Py.str user_id ∈ (map_to_list (online_map chat_id st0)).*2) = false
          ↔ ¬ online chat_id st0 user_id) as Hb.
  { intros st0. rewrite bool_decide_eq_false.
    unfold online. by rewrite PresenceFacts.elem_of_vals. }
  eexists st', _. split; [exact E|]. split_and!; try done.
  - rewrite negb_true_iff. apply Hb.
  - rewrite negb_true_iff, Hb. intros Hoff s. rewrite M'. split.
    + destruct (decide (s = socket_id)) as [->|Hs]; [done|].
      rewrite lookup_insert_ne by done. intros Hs'. destruct Hoff. by exists s.
    + intros ->. apply lookup_insert_eq.
  - intros socket_id' session_id' last_online'.
    destruct (PresenceFacts.socket_join_eq chat_id st' socket_id' session_id'
                user_id last_online' H') as (st'' & -> & _).
    simpl. f_equal. apply negb_false_iff, bool_decide_eq_true.
    apply PresenceFacts.elem_of_vals. exists socket_id.
    rewrite M'. apply lookup_insert_eq.
Qed.

(** C5 (leave-handle change signal).  In a room whose keys hold what the class
    writes, [socket_disconnect] removes the socket from the online map and
    returns [True] exactly when the socket had an owner and that owner has no
    socket left in the online map afterwards. *)
Theorem socket_disconnect_changed (chat_id : Z) (st : store)
    (socket_id : string) (user_number : Z) :
  room_ok chat_id st →
  ∃ st' b,
    socket_disconnect chat_id socket_id user_number st = (st', Py.Return b)
    ∧ online_map chat_id st' = delete socket_id (online_map chat_id st)
    ∧ (b = true ↔
       ∃ user_id, online_map chat_id st !! socket_id = Some (Py.str user_id)
                  ∧ ¬ online chat_id st' user_id).
Proof.
  intros H.
  destruct (PresenceFacts.socket_disconnect_eq chat_id st socket_id user_number H)
    as (st' & E & H' & M' & _).
  eexists st', _. split; [exact E|]. split; [done|].
  destruct (online_map chat_id st !! socket_id) as [v|] eqn:Hv.
  - destruct (PyFacts.canonical_int v) as (n & -> & _).
    { by apply (PresenceFacts.room_ok_canonical chat_id st H) in Hv. }
    rewrite negb_true_iff, bool_decide_eq_false, PresenceFacts.elem_of_vals.
    split.
    + intros Hoff. by exists n.
    + intros (n' & [= E'] & Hoff). by apply PyFacts.str_inj in E' as ->.
  - split; [done|]. by intros (? & ? & _).
Qed.

(** C6 (ping timeout and its detection).  In a room whose keys hold what the
    class writes: [socket_ping] raises [PingTimeoutException], changing
    nothing, when the socket has no liveness record (whether or not the online
    map still has it) and when the online map does not have it; otherwise it
    sets the liveness record's expiry back to 30; and after a timeout of a
    socket that the online map still maps to [user_id],
    [inconsistent_entries] lists [(socket_id, user_id)]. *)
Theorem socket_ping_timeout (chat_id : Z) (st : store) (socket_id : string) :
  room_ok chat_id st →
  (liveness chat_id st socket_id = None ∨ online_map chat_id st !! socket_id = None →
   socket_ping chat_id socket_id st = (st, Py.Raise Py.PingTimeoutException))
  ∧ (∀ u e,
       online_map chat_id st !! socket_id = Some u →
       liveness chat_id st socket_id = Some e →
       socket_ping chat_id socket_id st
       = (<[session_key chat_id socket_id := Entry (value e) (Some 30%nat)]> st,
          Py.Return tt))
  ∧ (∀ user_id,
       online_map chat_id st !! socket_id = Some (Py.str user_id) →
       liveness chat_id st socket_id = None →
       ∃ l, inconsistent_entries chat_id (socket_ping chat_id socket_id st).1
            = (st, Py.Return l)
            ∧ (socket_id, user_id) ∈ l).
Proof.
  intros H. rewrite (PresenceFacts.socket_ping_eq chat_id st socket_id H).
  split_and!.
  - intros [-> | ->]; [|done]. by destruct (online_map chat_id st !! socket_id).
  - by intros u e -> ->.
  - intros user_id Hu Hl. rewrite Hu, Hl. simpl.
    destruct (PresenceFacts.inconsistent_entries_eq chat_id st H) as (l & E & _ & Hin).
    exists l. split; [done|]. by apply Hin.
Qed.

(** C8 (reconcile is detection-only).  In a room whose keys hold what the
    class writes, [inconsistent_entries] leaves the keyspace as it was and
    returns, each once, exactly the pairs (socket, user id) of the online map
    whose socket has no liveness record. *)
Theorem inconsistent_entries_detects (chat_id : Z) (st : store) :
  room_ok chat_id st →
  ∃ l, inconsistent_entries chat_id st = (st, Py.Return l)
    ∧ NoDup l
    ∧ ∀ socket_id user_id,
        (socket_id, user_id) ∈ l ↔
        online_map chat_id st !! socket_id = Some (Py.str user_id)
        ∧ liveness chat_id st socket_id = None.
Proof. apply PresenceFacts.inconsistent_entries_eq. Qed.

(** C9 (typing toggles).  In a room whose keys hold what the class writes:
    [user_start_typing] returns [True] exactly when the number was not in the
    typing set and adds it; [user_stop_typing] returns [True] exactly when it
    was in the set and removes it; a call that returns [False] leaves the
    keyspace as it was; and repeating either call returns [False]. *)
Theorem typing_toggles (chat_id : Z) (st : store) (user_number : Z) :
  room_ok chat_id st →
  (∃ st' b,
     user_start_typing chat_id user_number st = (st', Py.Return b)
     ∧ (b = true ↔ Py.str user_number ∉ typing_set chat_id st)
     ∧ typing_set chat_id st' = {[Py.str user_number]} ∪ typing_set chat_id st
     ∧ (b = false → st' = st)
     ∧ (user_start_typing chat_id user_number st').2 = Py.Return false)
  ∧ (∃ st' b,
       user_stop_typing chat_id user_number st = (st', Py.Return b)
       ∧ (b = true ↔ Py.str user_number ∈ typing_set chat_id st)
       ∧ typing_set chat_id st' = typing_set chat_id st ∖ {[Py.str user_number]}
       ∧ (b = false → st' = st)
       ∧ (user_stop_typing chat_id user_number st').2 = Py.Return false).
Proof.
  intros H. split.
  - destruct (PresenceFacts.user_start_typing_eq chat_id st user_number H)
      as (st' & E & H' & T' & _ & Hid).
    eexists st', _. split; [exact E|]. split_and!.
    + by rewrite negb_true_iff, bool_decide_eq_false.
    + done.
    + rewrite negb_false_iff, bool_decide_eq_true. apply Hid.
    + destruct (PresenceFacts.user_start_typing_eq chat_id st' user_number H')
        as (st'' & -> & _).
      simpl. f_equal. apply negb_false_iff, bool_decide_eq_true.
      rewrite T'. set_solver.
  - destruct (PresenceFacts.user_stop_typing_eq chat_id st user_number H)
      as (st' & E & H' & T' & _ & Hid).
    eexists st', _. split; [exact E|]. split_and!.
    + by rewrite bool_decide_eq_true.
    + done.
    + rewrite bool_decide_eq_false. apply Hid.
    + destruct (PresenceFacts.user_stop_typing_eq chat_id st' user_number H')
        as (st'' & -> & _).
      simpl. f_equal. apply bool_decide_eq_false. rewrite T'. set_solver.
Qed.

(** C10 (disconnect of an unknown socket).  In a room whose keys hold what the
    class writes, when the socket is not in the online map
    [socket_disconnect] returns [False] and leaves the online map as it was,
    and still takes [user_number] out of the typing set and deletes the
    socket's liveness key. *)
Theorem socket_disconnect_unknown_socket (chat_id : Z) (st : store)
    (socket_id : string) (user_number : Z) :
  room_ok chat_id st →
  online_map chat_id st !! socket_id = None →
  ∃ st',
    socket_disconnect chat_id socket_id user_number st = (st', Py.Return false)
    ∧ online_map chat_id st' = online_map chat_id st
    ∧ typing_set chat_id st'
      = typing_set chat_id st ∖ {[Py.str user_number]}
    ∧ liveness chat_id st' socket_id = None.
Proof.
  intros H Hs.
  destruct (PresenceFacts.socket_disconnect_eq chat_id st socket_id user_number H)
    as (st' & E & _ & M' & T' & L' & _).
  rewrite Hs in E. exists st'. split_and!; try done.
  rewrite M'. by apply delete_id.
Qed.

(** C7 (leave-user completeness).  The specification says that
    [user_disconnect] removes [user_number] from the typing set.  The script
    returns before its [srem] when the online map is empty: in chat 7 with
    nobody online and user number 3 typing, [user_disconnect(42, 3)] returns
    [False] and leaves 3 in the typing set, where [socket_disconnect] on the
    same room takes it out. *)
Theorem user_disconnect_keeps_typing_when_nobody_online :
  room_ok 7 room_only_typing
  ∧ online_map 7 room_only_typing = ∅
  ∧ typing_set 7 room_only_typing = {[ "3" ]}
  ∧ user_disconnect 7 42 3 room_only_typing = (room_only_typing, Py.Return false)
  ∧ typing_set 7 (user_disconnect 7 42 3 room_only_typing).1 = {[ "3" ]}
  ∧ typing_set 7 (socket_disconnect 7 "h1" 3 room_only_typing).1 = ∅.
Proof.
  split_and!.
  - apply (bool_decide_eq_true_1 (room_ok 7 room_only_typing)). by vm_compute.
  - by vm_compute.
  - by vm_compute.
  - by vm_compute.
  - by vm_compute.
  - by vm_compute.
Qed.

(** ** The properties at concrete rooms *)

(** [socket_join_changed] in the empty chat 7: the first join of user 42. *)
Lemma socket_join_changed_witness :
  room_ok 7 ∅
  ∧ ∃ st' b,
      socket_join 7 "h1" "sess-a" 42 "{}" ∅ = (st', Py.Return b)
      ∧ (b = true ↔ ¬ online 7 ∅ 42)
      ∧ (socket_join 7 "h2" "sess-b" 42 "{}" st').2 = Py.Return false.
Proof.
  assert (room_ok 7 ∅) as H
    by (apply (bool_decide_eq_true_1 (room_ok 7 ∅)); vm_compute; reflexivity).
  split; [exact H|].
  destruct (socket_join_changed 7 ∅ "h1" "sess-a" 42 "{}" H)
    as (st' & b & E & Hb & _ & _ & _ & Hnext).
  exists st', b. split; [exact E|]. split; [exact Hb|]. apply Hnext.
Defined.

(** [socket_disconnect_changed] in [room_two]: user 42 keeps socket ["h2"]. *)
Lemma socket_disconnect_changed_witness :
  room_ok 7 room_two
  ∧ ∃ st' b,
      socket_disconnect 7 "h1" 3 room_two = (st', Py.Return b)
      ∧ online_map 7 st' = delete "h1" (online_map 7 room_two)
      ∧ (b = true ↔
         ∃ user_id, online_map 7 room_two !! "h1" = Some (Py.str user_id)
                    ∧ ¬ online 7 st' user_id).
Proof.
  assert (room_ok 7 room_two) as H
    by (apply (bool_decide_eq_true_1 (room_ok 7 room_two)); vm_compute; reflexivity).
  split; [exact H|].
  exact (socket_disconnect_changed 7 room_two "h1" 3 H).
Defined.

(** [socket_ping_timeout] in [room_stale]: socket ["h1"] of user 42 is still in
    the online map and its liveness record has expired. *)
Lemma socket_ping_timeout_witness :
  room_ok 7 room_stale
  ∧ socket_ping 7 "h1" room_stale = (room_stale, Py.Raise Py.PingTimeoutException)
  ∧ ∃ l, inconsistent_entries 7 (socket_ping 7 "h1" room_stale).1
         = (room_stale, Py.Return l)
         ∧ ("h1", 42) ∈ l.
Proof.
  assert (room_ok 7 room_stale) as H
    by (apply (bool_decide_eq_true_1 (room_ok 7 room_stale)); vm_compute; reflexivity).
  assert (liveness 7 room_stale "h1" = None) as Hl by (vm_compute; reflexivity).
  assert (online_map 7 room_stale !! "h1" = Some (Py.str 42)) as Hu
    by (vm_compute; reflexivity).
  destruct (socket_ping_timeout 7 room_stale "h1" H) as (Hout & _ & Hrec).
  split; [exact H|]. split.
  - apply Hout. left. exact Hl.
  - exact (Hrec 42 Hu Hl).
Defined.

(** [inconsistent_entries_detects] in [room_stale]. *)
Lemma inconsistent_entries_detects_witness :
  room_ok 7 room_stale
  ∧ ∃ l, inconsistent_entries 7 room_stale = (room_stale, Py.Return l)
      ∧ NoDup l
      ∧ ∀ socket_id user_id,
          (socket_id, user_id) ∈ l ↔
          online_map 7 room_stale !! socket_id = Some (Py.str user_id)
          ∧ liveness 7 room_stale socket_id = None.
Proof.
  assert (room_ok 7 room_stale) as H
    by (apply (bool_decide_eq_true_1 (room_ok 7 room_stale)); vm_compute; reflexivity).
  split; [exact H|].
  exact (inconsistent_entries_detects 7 room_stale H).
Defined.

(** [typing_toggles] in [room_two], for user number 3. *)
Lemma typing_toggles_witness :
  room_ok 7 room_two
  ∧ (∃ st' b,
       user_start_typing 7 3 room_two = (st', Py.Return b)
       ∧ (b = true ↔ Py.str 3 ∉ typing_set 7 room_two)
       ∧ (user_start_typing 7 3 st').2 = Py.Return false)
  ∧ (∃ st' b,
       user_stop_typing 7 3 room_two = (st', Py.Return b)
       ∧ (b = true ↔ Py.str 3 ∈ typing_set 7 room_two)
       ∧ (b = false → st' = room_two)).
Proof.
  assert (room_ok 7 room_two) as H
    by (apply (bool_decide_eq_true_1 (room_ok 7 room_two)); vm_compute; reflexivity).
  split; [exact H|].
  destruct (typing_toggles 7 room_two 3 H)
    as [(st1 & b1 & E1 & Hb1 & _ & _ & Hagain) (st2 & b2 & E2 & Hb2 & _ & Hid & _)].
  split.
  - exists st1, b1. split; [exact E1|]. split; [exact Hb1|exact Hagain].
  - exists st2, b2. split; [exact E2|]. split; [exact Hb2|exact Hid].
Defined.

(** [socket_disconnect_unknown_socket] in [room_typing], for a socket ["h9"]
    that never joined. *)
Lemma socket_disconnect_unknown_socket_witness :
  room_ok 7 room_typing
  ∧ online_map 7 room_typing !! "h9" = None
  ∧ ∃ st',
      socket_disconnect 7 "h9" 3 room_typing = (st', Py.Return false)
      ∧ online_map 7 st' = online_map 7 room_typing
      ∧ typing_set 7 st' = typing_set 7 room_typing ∖ {[Py.str 3]}
      ∧ liveness 7 st' "h9" = None.
Proof.
  assert (room_ok 7 room_typing) as H
    by (apply (bool_decide_eq_true_1 (room_ok 7 room_typing)); vm_compute; reflexivity).
  assert (online_map 7 room_typing !! "h9" = None) as Hs by (vm_compute; reflexivity).
  split; [exact H|]. split; [exact Hs|].
  exact (socket_disconnect_unknown_socket 7 room_typing "h9" 3 H Hs).
Defined.

(** ** The scenarios of the specification, run on the model *)

(** User 1 opens ["H1"] (joined), then ["H2"] (no change); ["H1"] leaves (no
    change), then ["H2"] leaves (left); the online map is empty again. *)
Example scenario_two_sockets :
  let r1 := socket_join 7 "H1" "sess" 1 "{}" ∅ in
  let r2 := socket_join 7 "H2" "sess" 1 "{}" r1.1 in
  let r3 := socket_disconnect 7 "H1" 4 r2.1 in
  let r4 := socket_disconnect 7 "H2" 4 r3.1 in
  r1.2 = Py.Return true ∧ r2.2 = Py.Return false
  ∧ r3.2 = Py.Return false ∧ r4.2 = Py.Return true
  ∧ online_map 7 r4.1 = ∅.
Proof. by vm_compute. Qed.

(** The typing set of chat 7 is empty; 3 starts typing twice and stops twice. *)
Example scenario_typing :
  let r1 := user_start_typing 7 3 ∅ in
  let r2 := user_start_typing 7 3 r1.1 in
  let r3 := user_numbers_typing 7 r2.1 in
  let r4 := user_stop_typing 7 3 r3.1 in
  let r5 := user_stop_typing 7 3 r4.1 in
  r1.2 = Py.Return true ∧ r2.2 = Py.Return false ∧ r3.2 = Py.Return [3]
  ∧ r4.2 = Py.Return true ∧ r4.1 = ∅ ∧ r5.2 = Py.Return false.
Proof. by vm_compute. Qed.

(** User 42 joined on two sockets and 30 seconds went by: both liveness
    records are gone, the online map still has both sockets, a ping times out
    and [inconsistent_entries] reports both. *)
Example scenario_expiry :
  liveness 7 room_two "h1" = Some (Entry (RString "sess-a") (Some 30%nat))
  ∧ liveness 7 room_stale "h1" = None
  ∧ online_map 7 room_stale = online_map 7 room_two
  ∧ (socket_ping 7 "h1" room_two).2 = Py.Return tt
  ∧ (socket_ping 7 "h1" room_stale).2 = Py.Raise Py.PingTimeoutException
  ∧ (inconsistent_entries 7 room_two).2 = Py.Return []
  ∧ ∃ l, (inconsistent_entries 7 room_stale).2 = Py.Return l
         ∧ l ≡ₚ [("h1", 42); ("h2", 42)].
Proof.
  split_and!; try by vm_compute.
  eexists. split; [by vm_compute|]. by vm_compute; repeat constructor.
Qed.

(** * Further properties of the code *)

(** ** Connection tokens: what each method writes and removes *)

Module TokenStoreFacts.
Import Redis RedisFacts ConnectionTokenStore.

Lemma forward_ne_reverse t u c : forward_token_key t ≠ reverse_token_key u c.
Proof. unfold forward_token_key, reverse_token_key. intros H. vm_compute in H. discriminate H. Qed.

Lemma forward_inj t t' : forward_token_key t = forward_token_key t' → t = t'.
Proof. unfold forward_token_key. intros H. by apply (inj (String.app _)) in H. Qed.

Lemma elapse_lookup n (st : store) k :
  elapse n st !! k
  = match st !! k with
    | Some (Entry v (Some t)) =>
        if decide (t ≤ n)%nat then None else Some (Entry v (Some (t - n)%nat))
    | o => o
    end.
Proof.
  unfold elapse. rewrite lookup_omap.
  destruct (st !! k) as [[v [t|]]|]; simpl; [|done..].
  by destruct (decide (t ≤ n)%nat).
Qed.

(** The keyspace left by a [create_connection_token_script] that no command
    refuses. *)
Lemma create_script_run a1 a2 a3 a4 st :
  string_or_unset (reverse_token_key a1 a2) st = true →
  hash_or_unset (forward_token_key a3) st = true →
  let st1 := match st !! reverse_token_key a1 a2 with
             | Some (Entry (RString t0) _) => delete (forward_token_key t0) st
             | _ => st
             end in
  let h0 := match st1 !! forward_token_key a3 with
            | Some (Entry (RHash h0) _) => h0
            | _ => ∅
            end in
  create_connection_token_script a1 a2 a3 a4 st
  = (<[reverse_token_key a1 a2 := Entry (RString a4) (Some expire_time)]>
       (<[forward_token_key a3 :=
            Entry (RHash (<["session_id" := a3]>
                            (<["chat_id" := a2]> (<["user_id" := a1]> h0))))
                  (Some expire_time)]> st1),
     Ok tt).
Proof.
  intros Hr Hf st1 h0. unfold create_connection_token_script.
  fold (reverse_token_key a1 a2). fold (forward_token_key a3).
  assert (forward_token_key a3 ≠ reverse_token_key a1 a2) as Hne
    by apply forward_ne_reverse.
  assert (hash_or_unset (forward_token_key a3) st1 = true) as Hf1.
  { unfold st1, hash_or_unset in *.
    destruct (st !! reverse_token_key a1 a2) as [[[t0|?|?] ?]|]; try done.
    rewrite lookup_delete. by case_decide. }
  unfold bind, GET, string_or_unset in *.
  destruct (st !! reverse_token_key a1 a2) as [[[t0|?|?] ?]|] eqn:Er; try done; simpl;
    try fold (forward_token_key t0) in *; fold st1;
    unfold HMSET, hash_or_unset in *;
    destruct (st1 !! forward_token_key a3) as [[[?|h1|?] t1]|] eqn:Ef; try done; simpl;
    unfold EXPIRE; rewrite lookup_insert_eq; simpl;
    unfold SET; rewrite lookup_insert_eq; simpl;
    unfold ret, h0; rewrite ?Ef; simpl; by rewrite !insert_insert_eq.
Qed.

Lemma create_run user_id chat_id session_id token st :
  string_or_unset (reverse_token_key (Py.str user_id) (Py.str chat_id)) st = true →
  hash_or_unset (forward_token_key session_id) st = true →
  ∃ st1 h0,
    create_connection_token user_id chat_id session_id token st
    = (<[reverse_token_key (Py.str user_id) (Py.str chat_id)
           := Entry (RString token) (Some expire_time)]>
         (<[forward_token_key session_id :=
              Entry (RHash (<["session_id" := session_id]>
                              (<["chat_id" := Py.str chat_id]>
                                 (<["user_id" := Py.str user_id]> h0))))
                    (Some expire_time)]> st1),
       Py.Return token).
Proof.
  intros Hr Hf. unfold create_connection_token, eval.
  rewrite (create_script_run _ _ _ _ st Hr Hf). by eexists _, _.
Qed.

(** [invalidate_connection_token] on a reverse key that is unset or a string. *)
Lemma invalidate_run user_id chat_id st :
  string_or_unset (reverse_token_key (Py.str user_id) (Py.str chat_id)) st = true →
  invalidate_connection_token user_id chat_id st
  = (match st !! reverse_token_key (Py.str user_id) (Py.str chat_id) with
     | Some (Entry (RString t0) _) =>
         delete (forward_token_key t0)
           (delete (reverse_token_key (Py.str user_id) (Py.str chat_id)) st)
     | _ => st
     end, Py.Return tt).
Proof.
  intros Hr. unfold invalidate_connection_token, eval,
    invalidate_connection_token_script, bind, GET, string_or_unset in *.
  fold (reverse_token_key (Py.str user_id) (Py.str chat_id)) in *.
  by destruct (st !! reverse_token_key _ _) as [[[t0|?|?] ?]|].
Qed.


End TokenStoreFacts.



(** X1.  When the reverse key of the pair is unset or a string and the
    forward key of the session id is unset or a hash,
    [create_connection_token] returns the drawn token and leaves the reverse
    record holding that token and the forward record (filed under the session
    id) holding the three fields, each with 10 seconds to live. *)
Theorem create_connection_token_records (user_id chat_id : Z)
    (session_id token : string) (st : store) :
  string_or_unset (reverse_token_key (Py.str user_id) (Py.str chat_id)) st = true →
  hash_or_unset (forward_token_key session_id) st = true →
  let created := create_connection_token user_id chat_id session_id token st in
  created.2 = Py.Return token
  ∧ created.1 !! reverse_token_key (Py.str user_id) (Py.str chat_id)
    = Some (Entry (RString token) (Some 10%nat))
  ∧ ∃ h, created.1 !! forward_token_key session_id
         = Some (Entry (RHash h) (Some 10%nat))
         ∧ h !! "user_id" = Some (Py.str user_id)
         ∧ h !! "chat_id" = Some (Py.str chat_id)
         ∧ h !! "session_id" = Some session_id.
Proof.
  intros Hr Hf created.
  destruct (TokenStoreFacts.create_run user_id chat_id session_id token st Hr Hf)
    as (st1 & h0 & E).
  unfold created. rewrite E. simpl. split_and!.
  - done.
  - apply lookup_insert_eq.
  - eexists. rewrite lookup_insert_ne
      by (intros E'; symmetry in E'; by apply TokenStoreFacts.forward_ne_reverse in E').
    rewrite lookup_insert_eq. split; [done|]. split_and!.
    + by rewrite lookup_insert_ne, lookup_insert_ne, lookup_insert_eq.
    + by rewrite lookup_insert_ne, lookup_insert_eq.
    + by rewrite lookup_insert_eq.
Qed.

Lemma create_connection_token_records_witness :
  let st := (create_connection_token 5 9 "s1" "0b6e2d6c-3f0a-4c52-9d55-7e1f4a2b8c11" ∅).1 in
  string_or_unset (reverse_token_key (Py.str 5) (Py.str 9)) st = true
  ∧ hash_or_unset (forward_token_key "s2") st = true
  ∧ (create_connection_token 5 9 "s2" "5d1c9a77-20e4-4b8e-8f3a-c2f6d0a4e9b3" st).2
    = Py.Return "5d1c9a77-20e4-4b8e-8f3a-c2f6d0a4e9b3".
Proof.
  intros st.
  assert (string_or_unset (reverse_token_key (Py.str 5) (Py.str 9)) st = true) as Hr
    by (vm_compute; reflexivity).
  assert (hash_or_unset (forward_token_key "s2") st = true) as Hf
    by (vm_compute; reflexivity).
  split; [exact Hr|]. split; [exact Hf|].
  exact (proj1 (create_connection_token_records 5 9 "s2"
                  "5d1c9a77-20e4-4b8e-8f3a-c2f6d0a4e9b3" st Hr Hf)).
Defined.

(** X2.  Whatever the keyspace holds, [create_connection_token] leaves every
    key alone except the reverse key of the pair, the forward key of the
    session id and the forward key of the token the reverse record held. *)
Theorem create_connection_token_frame (user_id chat_id : Z)
    (session_id token : string) (st : store) (k : string) :
  k ≠ reverse_token_key (Py.str user_id) (Py.str chat_id) →
  k ≠ forward_token_key session_id →
  (∀ t0 ttl0,
     st !! reverse_token_key (Py.str user_id) (Py.str chat_id)
     = Some (Entry (RString t0) ttl0) → k ≠ forward_token_key t0) →
  (create_connection_token user_id chat_id session_id token st).1 !! k = st !! k.
Proof.
  intros Hkr Hkf Hkt.
  unfold create_connection_token, eval, create_connection_token_script.
  fold (reverse_token_key (Py.str user_id) (Py.str chat_id)) in *.
  fold (forward_token_key session_id) in *.
  unfold bind, GET.
  destruct (st !! reverse_token_key _ _) as [[[t0|?|?] ttl0]|] eqn:Er; simpl; try done.
  - fold (forward_token_key t0). specialize (Hkt t0 ttl0 eq_refl).
    unfold HMSET.
    destruct (delete (forward_token_key t0) st !! forward_token_key session_id)
      as [[[?|h1|?] t1]|] eqn:Ef; simpl;
      try (by rewrite lookup_delete_ne);
      unfold EXPIRE; rewrite lookup_insert_eq; simpl;
      unfold SET; rewrite lookup_insert_eq; simpl;
      rewrite !lookup_insert_ne by done; by rewrite lookup_delete_ne.
  - unfold HMSET.
    destruct (st !! forward_token_key session_id) as [[[?|h1|?] t1]|] eqn:Ef; simpl;
      try done;
      unfold EXPIRE; rewrite lookup_insert_eq; simpl;
      unfold SET; rewrite lookup_insert_eq; simpl;
      by rewrite !lookup_insert_ne by done.
Qed.

Lemma create_connection_token_frame_witness :
  let st := (create_connection_token 5 9 "s1" "0b6e2d6c-3f0a-4c52-9d55-7e1f4a2b8c11" ∅).1 in
  (create_connection_token 5 9 "s2" "5d1c9a77-20e4-4b8e-8f3a-c2f6d0a4e9b3" st).1
    !! forward_token_key "s1"
  = st !! forward_token_key "s1".
Proof.
  intros st.
  apply (create_connection_token_frame 5 9 "s2"
           "5d1c9a77-20e4-4b8e-8f3a-c2f6d0a4e9b3" st (forward_token_key "s1")).
  - vm_compute. discriminate.
  - vm_compute. discriminate.
  - intros t0 ttl0 E. vm_compute in E. injection E as <- _. vm_compute. discriminate.
Defined.

(** X3.  Token records expire: once [create_connection_token] has written
    them, both records are still there (with the time left) before 10 seconds
    have gone by and are both gone from then on, with no call made. *)
Theorem token_records_expire (user_id chat_id : Z) (session_id token : string)
    (st : store) (seconds : nat) :
  string_or_unset (reverse_token_key (Py.str user_id) (Py.str chat_id)) st = true →
  hash_or_unset (forward_token_key session_id) st = true →
  let later :=
    elapse seconds (create_connection_token user_id chat_id session_id token st).1 in
  ((10 ≤ seconds)%nat →
     later !! reverse_token_key (Py.str user_id) (Py.str chat_id) = None
     ∧ later !! forward_token_key session_id = None)
  ∧ ((seconds < 10)%nat →
       later !! reverse_token_key (Py.str user_id) (Py.str chat_id)
       = Some (Entry (RString token) (Some (10 - seconds)%nat))
       ∧ ∃ h, later !! forward_token_key session_id
              = Some (Entry (RHash h) (Some (10 - seconds)%nat))).
Proof.
  intros Hr Hf later.
  destruct (create_connection_token_records user_id chat_id session_id token st Hr Hf)
    as (_ & Er & h & Ef & _).
  unfold later. rewrite !TokenStoreFacts.elapse_lookup, Er, Ef. split.
  - intros Hn. by rewrite !decide_True by done.
  - intros Hn. rewrite !decide_False by lia. split; [done|by exists h].
Qed.

Lemma token_records_expire_witness :
  let later :=
    elapse 10 (create_connection_token 5 9 "s1"
                 "0b6e2d6c-3f0a-4c52-9d55-7e1f4a2b8c11" ∅).1 in
  later !! reverse_token_key (Py.str 5) (Py.str 9) = None
  ∧ later !! forward_token_key "s1" = None.
Proof.
  intros later.
  apply (token_records_expire 5 9 "s1" "0b6e2d6c-3f0a-4c52-9d55-7e1f4a2b8c11" ∅ 10).
  - vm_compute. reflexivity.
  - vm_compute. reflexivity.
  - lia.
Defined.

(** X4.  [invalidate_connection_token] on a reverse key that is unset or a
    string returns normally; afterwards the reverse record is gone, and so is
    the key ["connection:token:" .. t] for the token [t] it held; every other
    key is as before; with no reverse record nothing changes; and a second
    call changes nothing. *)
Theorem invalidate_connection_token_removes (user_id chat_id : Z) (st : store) :
  string_or_unset (reverse_token_key (Py.str user_id) (Py.str chat_id)) st = true →
  let reverse := reverse_token_key (Py.str user_id) (Py.str chat_id) in
  let done := invalidate_connection_token user_id chat_id st in
  done.2 = Py.Return tt
  ∧ done.1 !! reverse = None
  ∧ (∀ t ttl0, st !! reverse = Some (Entry (RString t) ttl0) →
       done.1 !! forward_token_key t = None)
  ∧ (∀ k, k ≠ reverse →
       (∀ t ttl0, st !! reverse = Some (Entry (RString t) ttl0) →
          k ≠ forward_token_key t) →
       done.1 !! k = st !! k)
  ∧ (st !! reverse = None → done.1 = st)
  ∧ invalidate_connection_token user_id chat_id done.1 = (done.1, Py.Return tt).
Proof.
  intros Hr reverse done. unfold done.
  rewrite (TokenStoreFacts.invalidate_run user_id chat_id st Hr). fold reverse.
  unfold string_or_unset in Hr. fold reverse in Hr. simpl.
  destruct (st !! reverse) as [[[t0|?|?] ttl0]|] eqn:Er; try done.
  - assert (delete (forward_token_key t0) (delete reverse st) !! reverse = None) as Hgone.
    { rewrite lookup_delete_ne by apply TokenStoreFacts.forward_ne_reverse.
      apply lookup_delete_eq. }
    split_and!; try done.
    + intros t ttl' [= <- _]. apply lookup_delete_eq.
    + intros k Hk Hkt. specialize (Hkt t0 ttl0 eq_refl).
      by rewrite !lookup_delete_ne.
    + rewrite TokenStoreFacts.invalidate_run.
      * fold reverse. by rewrite Hgone.
      * unfold string_or_unset. fold reverse. by rewrite Hgone.
  - split_and!; try done.
    rewrite TokenStoreFacts.invalidate_run.
    + fold reverse. by rewrite Er.
    + unfold string_or_unset. fold reverse. by rewrite Er.
Qed.

Lemma invalidate_connection_token_removes_witness :
  let st := (create_connection_token 5 9 "s1" "0b6e2d6c-3f0a-4c52-9d55-7e1f4a2b8c11" ∅).1 in
  string_or_unset (reverse_token_key (Py.str 5) (Py.str 9)) st = true
  ∧ (invalidate_connection_token 5 9 st).2 = Py.Return tt
  ∧ (invalidate_connection_token 5 9 st).1 !! reverse_token_key (Py.str 5) (Py.str 9)
    = None.
Proof.
  intros st.
  assert (string_or_unset (reverse_token_key (Py.str 5) (Py.str 9)) st = true) as Hr
    by (vm_compute; reflexivity).
  split; [exact Hr|].
  destruct (invalidate_connection_token_removes 5 9 st Hr) as (E & Hgone & _).
  split; [exact E|exact Hgone].
Defined.

(** X5.  Invalidation does not reach the record that creation wrote: after
    [create_connection_token] for a session id that differs from the token,
    [invalidate_connection_token] for the pair removes the reverse record and
    leaves the forward record (the one keyed by the session id) in place. *)
Theorem invalidate_after_create_keeps_forward_record (user_id chat_id : Z)
    (session_id token : string) (st : store) :
  string_or_unset (reverse_token_key (Py.str user_id) (Py.str chat_id)) st = true →
  hash_or_unset (forward_token_key session_id) st = true →
  token ≠ session_id →
  let created := (create_connection_token user_id chat_id session_id token st).1 in
  let invalidated := (invalidate_connection_token user_id chat_id created).1 in
  invalidated !! reverse_token_key (Py.str user_id) (Py.str chat_id) = None
  ∧ is_Some (invalidated !! forward_token_key session_id)
  ∧ invalidated !! forward_token_key session_id
    = created !! forward_token_key session_id.
Proof.
  intros Hr Hf Hne created invalidated.
  destruct (create_connection_token_records user_id chat_id session_id token st Hr Hf)
    as (_ & Er & h & Ef & _).
  fold created in Er, Ef.
  assert (string_or_unset (reverse_token_key (Py.str user_id) (Py.str chat_id))
            created = true) as Hr'.
  { unfold string_or_unset. by rewrite Er. }
  unfold invalidated.
  rewrite (TokenStoreFacts.invalidate_run user_id chat_id created Hr'), Er. simpl.
  assert (forward_token_key token ≠ forward_token_key session_id) as Hk
    by (by intros ?%TokenStoreFacts.forward_inj).
  split_and!.
  - rewrite lookup_delete_ne by apply TokenStoreFacts.forward_ne_reverse.
    apply lookup_delete_eq.
  - rewrite lookup_delete_ne by done.
    rewrite lookup_delete_ne
      by (intros E'; symmetry in E'; by apply TokenStoreFacts.forward_ne_reverse in E').
    by rewrite Ef.
  - rewrite lookup_delete_ne by done.
    by rewrite lookup_delete_ne
      by (intros E'; symmetry in E'; by apply TokenStoreFacts.forward_ne_reverse in E').
Qed.

Lemma invalidate_after_create_keeps_forward_record_witness :
  let created :=
    (create_connection_token 5 9 "s1" "0b6e2d6c-3f0a-4c52-9d55-7e1f4a2b8c11" ∅).1 in
  let invalidated := (invalidate_connection_token 5 9 created).1 in
  invalidated !! reverse_token_key (Py.str 5) (Py.str 9) = None
  ∧ is_Some (invalidated !! forward_token_key "s1").
Proof.
  intros created invalidated.
  destruct (invalidate_after_create_keeps_forward_record 5 9 "s1"
              "0b6e2d6c-3f0a-4c52-9d55-7e1f4a2b8c11" ∅) as (Hgone & Hkept & _).
  - vm_compute. reflexivity.
  - vm_compute. reflexivity.
  - discriminate.
  - split; [exact Hgone|exact Hkept].
Defined.

(** X6.  [use_connection_token] never writes: whatever it is given, every
    record of the keyspace afterwards was there before, unchanged.  And when
    the token is malformed or has no forward record, it raises
    [InvalidToken] and the keyspace is as before. *)
Theorem use_connection_token_only_deletes (globals_protection : bool)
    (is_uuid : string → bool) (token : string) (st : store) :
  (use_connection_token globals_protection is_uuid token st).1 ⊆ st
  ∧ (is_uuid token = false ∨ st !! forward_token_key token = None →
     use_connection_token globals_protection is_uuid token st
     = (st, Py.Raise Py.InvalidToken)).
Proof.
  split.
  - unfold use_connection_token.
    destruct (is_uuid token); [|done].
    unfold eval, use_connection_token_script, bind, HGET.
    destruct (st !! ("connection:token:" +:+ token)) as [[[s|h|s] t]|] eqn:Hk;
      repeat (rewrite Hk; simpl); try done.
    destruct (h !! "user_id") as [u|]; [|done].
    destruct (h !! "session_id") as [c|]; [|done].
    assert (delete ("connection:user:" +:+ u +:+ ":" +:+ c)
              (delete ("connection:token:" +:+ token) st) ⊆ st) as Hsub.
    { etrans; apply delete_subseteq. }
    unfold unassigned_global. by destruct globals_protection.
  - intros [Hu|Hk].
    + unfold use_connection_token. by rewrite Hu.
    + by apply TokenFacts.use_absent.
Qed.

(** X7.  A token just created cannot be redeemed: when the token has no
    forward record of its own before the call and differs from the session
    id, [use_connection_token] on the token returned by
    [create_connection_token] raises [InvalidToken] and changes nothing. *)
Theorem fresh_token_is_not_redeemable (globals_protection : bool)
    (is_uuid : string → bool) (user_id chat_id : Z) (session_id token : string)
    (st : store) :
  token ≠ session_id →
  st !! forward_token_key token = None →
  let created := (create_connection_token user_id chat_id session_id token st).1 in
  use_connection_token globals_protection is_uuid token created
  = (created, Py.Raise Py.InvalidToken).
Proof.
  intros Hne Hk created. apply TokenFacts.use_absent.
  by apply TokenFacts.create_keeps_token_key_absent.
Qed.

Lemma fresh_token_is_not_redeemable_witness :
  let token := "5d1c9a77-20e4-4b8e-8f3a-c2f6d0a4e9b3" in
  let st := (create_connection_token 5 9 "s1" "0b6e2d6c-3f0a-4c52-9d55-7e1f4a2b8c11" ∅).1 in
  (use_connection_token true (λ _, true) token
     (create_connection_token 7 9 "s2" token st).1).2
  = Py.Raise Py.InvalidToken.
Proof.
  intros token st.
  rewrite (fresh_token_is_not_redeemable true (λ _, true) 7 9 "s2" token st).
  - reflexivity.
  - discriminate.
  - vm_compute. reflexivity.
Defined.

(** ** Online state: the read-only methods and the passing of time *)

Module RegistryFacts.
Import Redis RedisFacts UserListStore KeyFacts PresenceFacts.

Section Chat.
Variable chat_id : Z.

Abbreviation online_key := (online_key chat_id).
Abbreviation typing_key := (typing_key chat_id).
Abbreviation session_key := (session_key chat_id).
Abbreviation online_map := (online_map chat_id).
Abbreviation typing_set := (typing_set chat_id).
Abbreviation liveness := (liveness chat_id).
Abbreviation session_of := (session_of chat_id).
Abbreviation room_ok := (room_ok chat_id).
Abbreviation typing_ok := (typing_ok chat_id).
Abbreviation online_kept := (online_kept chat_id).

(** *** Replies that hold ids written by [str] *)

Lemma to_int_canonical (l : list string) :
  Forall (λ v, Py.str <$> Py.int v = Some v) l →
  ∃ ns, Py.comprehension to_int l = Py.Return ns ∧ l = Py.str <$> ns.
Proof.
  induction 1 as [|v l Hv _ (ns & IH & Hl)]; simpl; [by exists []|].
  apply PyFacts.canonical_int in Hv as (n & Hn & Hi).
  rewrite IH. unfold to_int. rewrite Hi. exists (n :: ns).
  split; [done|]. rewrite fmap_cons. by rewrite <- Hn, <- Hl.
Qed.

#[global] Instance py_str_inj : Inj (=) (=) Py.str.
Proof. intros m n. apply PyFacts.str_inj. Qed.

Lemma int_set_canonical (l : list string) :
  Forall (λ v, Py.str <$> Py.int v = Some v) l →
  ∃ ids, int_set l = Py.Return ids ∧ ∀ n, n ∈ ids ↔ Py.str n ∈ l.
Proof.
  intros (ns & E & ->)%to_int_canonical. unfold int_set. rewrite E.
  eexists. split; [done|]. intros n. rewrite elem_of_list_to_set.
  symmetry. apply (list_elem_of_fmap_inj Py.str).
Qed.

Lemma online_vals_canonical st :
  room_ok st →
  Forall (λ v, Py.str <$> Py.int v = Some v) (map_to_list (online_map st)).*2.
Proof.
  intros H. apply Forall_forall. intros v (s & Hs)%PresenceFacts.elem_of_vals.
  by apply (room_ok_canonical chat_id st H) in Hs.
Qed.

(** *** [user_ids_online] *)

Lemma user_ids_online_eq st :
  room_ok st →
  user_ids_online chat_id st
  = (st, int_set (map_to_list (online_map st)).*2).
Proof.
  intros H. unfold user_ids_online. by rewrite (HVALS_online chat_id st H).
Qed.

(** *** [session_has_open_socket] *)

Lemma session_loop_eq (sess u : string) l st :
  room_ok st →
  session_has_open_socket_loop (Py.str chat_id) sess u l st
  = (st, Ok match find (λ p, bool_decide (session_of st p.1 = Some sess)) l with
            | Some p => String.eqb p.2 u
            | None => false
            end).
Proof.
  intros H. induction l as [|[s v] l IH]; simpl; [done|].
  unfold bind. fold (session_key s). rewrite (GET_session chat_id st s H).
  fold (session_of st s).
  destruct (bool_decide (session_of st s = Some sess)); [|done].
  simpl. by destruct (String.eqb v u).
Qed.

Lemma session_has_open_socket_eq (sess : string) (user_id : Z) st :
  room_ok st →
  session_has_open_socket chat_id sess user_id st
  = (st, Py.Return
           match find (λ p, bool_decide (session_of st p.1 = Some sess))
                   (map_to_list (online_map st)) with
           | Some p => String.eqb p.2 (Py.str user_id)
           | None => false
           end).
Proof.
  intros H. unfold session_has_open_socket, eval, session_has_open_socket_script, bind.
  fold online_key. rewrite (HGETALL_online chat_id st H).
  destruct (map_to_list (online_map st)) as [|p l] eqn:Hl; [done|].
  by rewrite session_loop_eq.
Qed.

(** *** The passing of time *)

Lemma elapse_online_map n st :
  online_kept st → online_map (elapse n st) = online_map st.
Proof.
  intros Hk. unfold UserListStore.online_map.
  rewrite TokenStoreFacts.elapse_lookup.
  destruct (st !! online_key) as [[v [t|]]|] eqn:E; try done.
  by apply Hk in E.
Qed.

Lemma elapse_liveness n st s :
  liveness (elapse n st) s
  = match liveness st s with
    | Some (Entry v (Some t)) =>
        if decide (t ≤ n)%nat then None else Some (Entry v (Some (t - n)%nat))
    | o => o
    end.
Proof. apply TokenStoreFacts.elapse_lookup. Qed.

Lemma socket_join_online_kept st socket_id session_id user_id last_online :
  room_ok st → online_kept st →
  online_kept (socket_join chat_id socket_id session_id user_id last_online st).1.
Proof.
  intros H Hk. unfold socket_join, HVALS.
  destruct (room_ok_online chat_id st H) as [E|(h & t & E & _)]; rewrite E.
  - unfold HSET at 1.
    destruct (room_ok_usermeta chat_id st H) as [Em|(hm & tm & Em)]; rewrite Em;
      unfold HSET;
      rewrite lookup_insert_ne by apply usermeta_ne_online; rewrite E; simpl;
      intros e; rewrite lookup_insert_ne by apply session_ne_online;
      rewrite lookup_insert_eq; by intros [= <-].
  - assert (t = None) as -> by (by apply Hk in E).
    unfold HSET at 1.
    destruct (room_ok_usermeta chat_id st H) as [Em|(hm & tm & Em)]; rewrite Em;
      unfold HSET;
      rewrite lookup_insert_ne by apply usermeta_ne_online; rewrite E; simpl;
      intros e; rewrite lookup_insert_ne by apply session_ne_online;
      rewrite lookup_insert_eq; by intros [= <-].
Qed.

(** *** The typing set *)

Lemma SMEMBERS_typing st :
  room_ok st → SMEMBERS typing_key st = (st, Ok (elements (typing_set st))).
Proof.
  intros H. unfold SMEMBERS, UserListStore.typing_set.
  destruct (room_ok_typing chat_id st H) as [->|(s & t & ->)]; [|done].
  by rewrite elements_empty.
Qed.

End Chat.
End RegistryFacts.

(** ** Presence registry: the read-only methods *)

(** X8.  In a room whose keys hold what the class writes, [user_ids_online]
    changes nothing and returns exactly the set of user ids that own at least
    one socket of the online map. *)
Theorem user_ids_online_are_the_owners (chat_id : Z) (st : store) :
  room_ok chat_id st →
  ∃ ids, user_ids_online chat_id st = (st, Py.Return ids)
    ∧ ∀ user_id, user_id ∈ ids ↔ online chat_id st user_id.
Proof.
  intros H. rewrite (RegistryFacts.user_ids_online_eq chat_id st H).
  destruct (RegistryFacts.int_set_canonical
              (map_to_list (online_map chat_id st)).*2) as (ids & -> & Hids).
  { by apply RegistryFacts.online_vals_canonical. }
  exists ids. split; [done|]. intros n.
  rewrite Hids. apply PresenceFacts.elem_of_vals.
Qed.

Lemma user_ids_online_are_the_owners_witness :
  room_ok 7 room_two
  ∧ ∃ ids, user_ids_online 7 room_two = (room_two, Py.Return ids)
      ∧ ∀ user_id, user_id ∈ ids ↔ online 7 room_two user_id.
Proof.
  assert (room_ok 7 room_two) as H
    by (apply (bool_decide_eq_true_1 (room_ok 7 room_two)); vm_compute; reflexivity).
  split; [exact H|]. exact (user_ids_online_are_the_owners 7 room_two H).
Defined.

(** X9.  [multi_user_ids_online] is [user_ids_online] chat by chat: when every
    listed chat's keys hold what the class writes, it changes nothing and its
    generator yields, in the order of [chat_ids], what [user_ids_online] gives
    for each chat. *)
Theorem multi_user_ids_online_is_pointwise (chat_ids : list Z) (st : store) :
  Forall (λ chat_id, room_ok chat_id st) chat_ids →
  multi_user_ids_online chat_ids st
  = (st, Py.Return ((λ chat_id, (user_ids_online chat_id st).2) <$> chat_ids)).
Proof.
  intros H. unfold multi_user_ids_online.
  assert (multi_hvals chat_ids st
          = (st, (λ c, Ok (map_to_list (online_map c st)).*2) <$> chat_ids)) as ->.
  { induction H as [|c cs Hc _ IH]; [done|].
    rewrite fmap_cons. simpl.
    by rewrite (PresenceFacts.HVALS_online c st Hc), IH. }
  assert (execute ((λ c, Ok (map_to_list (online_map c st)).*2) <$> chat_ids)
          = Py.Return ((λ c, (map_to_list (online_map c st)).*2) <$> chat_ids)) as ->.
  { clear H. induction chat_ids as [|c cs IH]; [done|].
    rewrite !fmap_cons. simpl. by rewrite IH. }
  do 2 f_equal. rewrite <- list_fmap_compose.
  induction H as [|c cs Hc _ IH]; [done|].
  rewrite !fmap_cons, (RegistryFacts.user_ids_online_eq c st Hc). simpl.
  destruct (RegistryFacts.int_set_canonical _
              (RegistryFacts.online_vals_canonical c st Hc)) as (ids & -> & _).
  by rewrite IH.
Qed.

Lemma multi_user_ids_online_is_pointwise_witness :
  Forall (λ chat_id, room_ok chat_id room_two) [7; 8]
  ∧ multi_user_ids_online [7; 8] room_two
    = (room_two,
       Py.Return [(user_ids_online 7 room_two).2; (user_ids_online 8 room_two).2]).
Proof.
  assert (Forall (λ chat_id, room_ok chat_id room_two) [7; 8]) as H.
  { repeat constructor.
    - apply (bool_decide_eq_true_1 (room_ok 7 room_two)); vm_compute; reflexivity.
    - apply (bool_decide_eq_true_1 (room_ok 8 room_two)); vm_compute; reflexivity. }
  split; [exact H|]. exact (multi_user_ids_online_is_pointwise [7; 8] room_two H).
Defined.

(** X10.  In a room whose keys hold what the class writes,
    [session_has_open_socket] changes nothing; when it returns [True] the
    online map has a socket of [user_id] whose liveness record holds
    [session_id]; and when no socket of the online map has a liveness record
    holding [session_id] it returns [False]. *)
Theorem session_has_open_socket_sound (chat_id : Z) (st : store)
    (session_id : string) (user_id : Z) :
  room_ok chat_id st →
  ∃ b, session_has_open_socket chat_id session_id user_id st = (st, Py.Return b)
    ∧ (b = true →
       ∃ socket_id,
         online_map chat_id st !! socket_id = Some (Py.str user_id)
         ∧ session_of chat_id st socket_id = Some session_id)
    ∧ ((∀ socket_id, is_Some (online_map chat_id st !! socket_id) →
          session_of chat_id st socket_id ≠ Some session_id) →
       b = false).
Proof.
  intros H.
  rewrite (RegistryFacts.session_has_open_socket_eq chat_id session_id user_id st H).
  eexists. split; [done|].
  destruct (find _ _) as [[s v]|] eqn:Hf.
  - apply find_some in Hf as [Hin%list_elem_of_In%elem_of_map_to_list Hs].
    simpl in Hs. apply bool_decide_eq_true in Hs. simpl. split.
    + intros Hv%String.eqb_eq. subst v. by exists s.
    + intros Hno. destruct (Hno s); [by eexists|done].
  - split; [done|]. done.
Qed.

Lemma session_has_open_socket_sound_witness :
  room_ok 7 room_two
  ∧ ∃ b, session_has_open_socket 7 "sess-b" 42 room_two = (room_two, Py.Return b)
      ∧ (b = true →
         ∃ socket_id,
           online_map 7 room_two !! socket_id = Some (Py.str 42)
           ∧ session_of 7 room_two socket_id = Some "sess-b").
Proof.
  assert (room_ok 7 room_two) as H
    by (apply (bool_decide_eq_true_1 (room_ok 7 room_two)); vm_compute; reflexivity).
  split; [exact H|].
  destruct (session_has_open_socket_sound 7 room_two "sess-b" 42 H) as (b & E & Hb & _).
  exists b. split; [exact E|exact Hb].
Defined.

(** X11.  When every socket of the online map whose liveness record holds
    [session_id] belongs to [user_id], [session_has_open_socket] returns
    [True] as soon as there is one such socket.  (The script stops at the
    first socket of the session, so the condition on the owners is needed.) *)
Theorem session_has_open_socket_complete (chat_id : Z) (st : store)
    (session_id : string) (user_id : Z) :
  room_ok chat_id st →
  (∀ socket_id v,
     online_map chat_id st !! socket_id = Some v →
     session_of chat_id st socket_id = Some session_id →
     v = Py.str user_id) →
  (∃ socket_id, is_Some (online_map chat_id st !! socket_id)
                ∧ session_of chat_id st socket_id = Some session_id) →
  session_has_open_socket chat_id session_id user_id st = (st, Py.Return true).
Proof.
  intros H Hown (s0 & [v0 Hv0] & Hs0).
  rewrite (RegistryFacts.session_has_open_socket_eq chat_id session_id user_id st H).
  do 2 f_equal.
  destruct (find _ _) as [[s v]|] eqn:Hf.
  - apply find_some in Hf as [Hin%list_elem_of_In%elem_of_map_to_list Hs].
    simpl in Hs. apply bool_decide_eq_true in Hs.
    simpl. rewrite (Hown s v Hin Hs). apply String.eqb_refl.
  - eapply find_none in Hf; [|apply list_elem_of_In, elem_of_map_to_list, Hv0].
    simpl in Hf. apply bool_decide_eq_false in Hf. done.
Qed.

Lemma session_has_open_socket_complete_witness :
  session_has_open_socket 7 "sess-b" 42 room_two = (room_two, Py.Return true).
Proof.
  apply (session_has_open_socket_complete 7 room_two "sess-b" 42).
  - apply (bool_decide_eq_true_1 (room_ok 7 room_two)); vm_compute; reflexivity.
  - intros s v Hv _.
    assert (map_Forall (λ _ v, v = Py.str 42) (online_map 7 room_two)) as Hall
      by (apply (bool_decide_eq_true_1 (map_Forall _ _)); vm_compute; reflexivity).
    exact (Hall s v Hv).
  - exists "h2". split; [eexists|]; vm_compute; reflexivity.
Defined.

(** X12.  In a room whose keys hold what the class writes and whose typing
    set holds numbers written by [str], [user_numbers_typing] changes nothing
    and returns, each once, exactly the numbers of the typing set; and
    [user_start_typing] and [user_stop_typing] keep the typing set so. *)
Theorem user_numbers_typing_lists_the_set (chat_id : Z) (st : store) :
  room_ok chat_id st →
  typing_ok chat_id st →
  (∃ l, user_numbers_typing chat_id st = (st, Py.Return l)
     ∧ NoDup l
     ∧ ∀ user_number, user_number ∈ l ↔ Py.str user_number ∈ typing_set chat_id st)
  ∧ (∀ user_number,
       typing_ok chat_id (user_start_typing chat_id user_number st).1
       ∧ typing_ok chat_id (user_stop_typing chat_id user_number st).1).
Proof.
  intros H Ht. split.
  - unfold user_numbers_typing. rewrite (RegistryFacts.SMEMBERS_typing chat_id st H).
    simpl.
    destruct (RegistryFacts.to_int_canonical (elements (typing_set chat_id st)))
      as (l & -> & Hl).
    { apply Forall_forall. intros m Hm%elem_of_elements. by apply Ht. }
    exists l. split; [done|]. split.
    + apply (NoDup_fmap_1 Py.str). rewrite <- Hl. apply NoDup_elements.
    + intros n. rewrite <- elem_of_elements, Hl.
      symmetry. apply (list_elem_of_fmap_inj Py.str).
  - intros n.
    destruct (PresenceFacts.user_start_typing_eq chat_id st n H)
      as (st1 & -> & _ & T1 & _).
    destruct (PresenceFacts.user_stop_typing_eq chat_id st n H)
      as (st2 & -> & _ & T2 & _).
    unfold typing_ok. simpl. rewrite T1, T2. split.
    + intros m [->%elem_of_singleton|Hm]%elem_of_union; [|by apply Ht].
      by rewrite PyFacts.int_str.
    + intros m [Hm _]%elem_of_difference. by apply Ht.
Qed.

Lemma user_numbers_typing_lists_the_set_witness :
  room_ok 7 room_typing ∧ typing_ok 7 room_typing
  ∧ ∃ l, user_numbers_typing 7 room_typing = (room_typing, Py.Return l)
      ∧ NoDup l
      ∧ ∀ user_number, user_number ∈ l ↔ Py.str user_number ∈ typing_set 7 room_typing.
Proof.
  assert (room_ok 7 room_typing) as H
    by (apply (bool_decide_eq_true_1 (room_ok 7 room_typing)); vm_compute; reflexivity).
  assert (typing_ok 7 room_typing) as Ht
    by (apply (bool_decide_eq_true_1 (typing_ok 7 room_typing)); vm_compute; reflexivity).
  split; [exact H|]. split; [exact Ht|].
  exact (proj1 (user_numbers_typing_lists_the_set 7 room_typing H Ht)).
Defined.

(** ** Presence registry: how the methods compose *)

(** X13.  A join and the disconnect of the same socket pair up: in a room
    whose keys hold what the class writes, joining on a socket the online map
    does not have and then disconnecting that socket gives the same change
    signal twice, restores the online map and leaves no liveness record for
    the socket. *)
Theorem join_then_disconnect_pairs_signals (chat_id : Z) (st : store)
    (socket_id session_id : string) (user_id : Z) (last_online : string)
    (user_number : Z) :
  room_ok chat_id st →
  online_map chat_id st !! socket_id = None →
  let joined := socket_join chat_id socket_id session_id user_id last_online st in
  let left := socket_disconnect chat_id socket_id user_number joined.1 in
  ∃ b, joined.2 = Py.Return b ∧ left.2 = Py.Return b
    ∧ online_map chat_id left.1 = online_map chat_id st
    ∧ liveness chat_id left.1 socket_id = None.
Proof.
  intros H Hs joined left. unfold left, joined.
  destruct (PresenceFacts.socket_join_eq chat_id st socket_id session_id user_id
              last_online H) as (st1 & -> & H1 & M1 & _).
  simpl.
  destruct (PresenceFacts.socket_disconnect_eq chat_id st1 socket_id user_number H1)
    as (st2 & -> & _ & M2 & _ & L2 & _).
  simpl.
  assert (online_map chat_id st2 = online_map chat_id st) as M.
  { rewrite M2, M1, delete_insert_eq. by apply delete_id. }
  eexists. split; [done|]. split_and!; try done.
  rewrite M1, lookup_insert_eq. by rewrite M.
Qed.

Lemma join_then_disconnect_pairs_signals_witness :
  let joined := socket_join 7 "h3" "sess-c" 42 "{}" room_two in
  let left := socket_disconnect 7 "h3" 3 joined.1 in
  ∃ b, joined.2 = Py.Return b ∧ left.2 = Py.Return b
    ∧ online_map 7 left.1 = online_map 7 room_two.
Proof.
  intros joined left.
  destruct (join_then_disconnect_pairs_signals 7 room_two "h3" "sess-c" 42 "{}" 3)
    as (b & E1 & E2 & M & _).
  - apply (bool_decide_eq_true_1 (room_ok 7 room_two)); vm_compute; reflexivity.
  - vm_compute. reflexivity.
  - exists b. split; [exact E1|]. split; [exact E2|exact M].
Defined.

(** X14.  A join takes a socket over: in a room whose keys hold what the class
    writes, when the socket already belongs to another user, [socket_join]
    gives it to the joining user, and the previous owner stays online only
    through their other sockets (no method call tells them apart from a user
    who left). *)
Theorem socket_join_takes_over_socket (chat_id : Z) (st : store)
    (socket_id session_id : string) (owner user_id : Z) (last_online : string) :
  room_ok chat_id st →
  online_map chat_id st !! socket_id = Some (Py.str owner) →
  owner ≠ user_id →
  let st' := (socket_join chat_id socket_id session_id user_id last_online st).1 in
  online_map chat_id st' !! socket_id = Some (Py.str user_id)
  ∧ (online chat_id st' owner ↔
     ∃ s, s ≠ socket_id ∧ online_map chat_id st !! s = Some (Py.str owner)).
Proof.
  intros H Ho Hne st'. unfold st'.
  destruct (PresenceFacts.socket_join_eq chat_id st socket_id session_id user_id
              last_online H) as (st1 & -> & _ & M1 & _).
  simpl. rewrite M1. split; [apply lookup_insert_eq|].
  unfold online. rewrite M1. split.
  - intros [s Hs]. exists s. destruct (decide (s = socket_id)) as [->|Hd].
    + rewrite lookup_insert_eq in Hs. injection Hs as Hs.
      by apply PyFacts.str_inj in Hs.
    + by rewrite lookup_insert_ne in Hs.
  - intros (s & Hd & Hs). exists s. by rewrite lookup_insert_ne.
Qed.

Lemma socket_join_takes_over_socket_witness :
  let st' := (socket_join 7 "h1" "sess-z" 50 "{}" room_one).1 in
  online_map 7 st' !! "h1" = Some (Py.str 50)
  ∧ (online 7 st' 42 ↔
     ∃ s, s ≠ "h1" ∧ online_map 7 room_one !! s = Some (Py.str 42)).
Proof.
  intros st'.
  apply (socket_join_takes_over_socket 7 room_one "h1" "sess-z" 42 50 "{}").
  - apply (bool_decide_eq_true_1 (room_ok 7 room_one)); vm_compute; reflexivity.
  - vm_compute. reflexivity.
  - discriminate.
Defined.

(** X15.  A socket that stops pinging times out after 30 seconds: in a room
    whose keys hold what the class writes and whose online map has no expiry,
    after [socket_join] a ping made before 30 seconds have gone by succeeds
    and sets the liveness record's expiry back to 30, and from 30 seconds on
    a ping raises [PingTimeoutException] while the online map still has the
    socket, so that [inconsistent_entries] lists it. *)
Theorem liveness_times_out_after_30_seconds (chat_id : Z) (st : store)
    (socket_id session_id : string) (user_id : Z) (last_online : string)
    (seconds : nat) :
  room_ok chat_id st →
  online_kept chat_id st →
  let later :=
    elapse seconds
      (socket_join chat_id socket_id session_id user_id last_online st).1 in
  ((seconds < 30)%nat →
     socket_ping chat_id socket_id later
     = (<[session_key chat_id socket_id
            := Entry (RString session_id) (Some 30%nat)]> later,
        Py.Return tt))
  ∧ ((30 ≤ seconds)%nat →
       socket_ping chat_id socket_id later
       = (later, Py.Raise Py.PingTimeoutException)
       ∧ online_map chat_id later !! socket_id = Some (Py.str user_id)
       ∧ ∃ l, inconsistent_entries chat_id later = (later, Py.Return l)
              ∧ (socket_id, user_id) ∈ l).
Proof.
  intros H Hk later.
  pose proof (RegistryFacts.socket_join_online_kept chat_id st socket_id session_id
                user_id last_online H Hk) as Hk1.
  destruct (PresenceFacts.socket_join_eq chat_id st socket_id session_id user_id
              last_online H) as (st1 & E & H1 & M1 & L1 & _).
  unfold later. rewrite E in *. simpl in *.
  pose proof (PresenceFacts.elapse_room_ok chat_id seconds st1 H1) as H2.
  assert (online_map chat_id (elapse seconds st1) !! socket_id
          = Some (Py.str user_id)) as Ho.
  { rewrite (RegistryFacts.elapse_online_map chat_id seconds st1 Hk1), M1.
    apply lookup_insert_eq. }
  pose proof (RegistryFacts.elapse_liveness chat_id seconds st1 socket_id) as Hl.
  rewrite L1 in Hl.
  rewrite (PresenceFacts.socket_ping_eq chat_id _ socket_id H2), Ho, Hl.
  split.
  - intros Hn. by rewrite decide_False by lia.
  - intros Hn. rewrite decide_True by lia. split; [done|]. split; [done|].
    destruct (PresenceFacts.inconsistent_entries_eq chat_id _ H2) as (l & El & _ & Hin).
    exists l. split; [done|]. apply Hin. split; [done|].
    rewrite Hl. by rewrite decide_True by lia.
Qed.

Lemma liveness_times_out_after_30_seconds_witness :
  let later := elapse 30 (socket_join 7 "h1" "sess-a" 42 "{}" ∅).1 in
  socket_ping 7 "h1" later = (later, Py.Raise Py.PingTimeoutException)
  ∧ online_map 7 later !! "h1" = Some (Py.str 42).
Proof.
  intros later.
  destruct (liveness_times_out_after_30_seconds 7 ∅ "h1" "sess-a" 42 "{}" 30)
    as (_ & Hout).
  - apply (bool_decide_eq_true_1 (room_ok 7 ∅)); vm_compute; reflexivity.
  - intros e He. vm_compute in He. discriminate He.
  - destruct Hout as (E & Ho & _); [lia|]. split; [exact E|exact Ho].
Defined.

(** X16.  [user_disconnect] takes the user offline and nobody else: in a room
    whose keys hold what the class writes it returns [True] exactly when the
    user was online; afterwards the user owns no socket and each of their
    sockets has lost its liveness record, while every other socket keeps its
    owner and its liveness record, so every other user is online exactly when
    they were. *)
Theorem user_disconnect_takes_user_offline (chat_id : Z) (st : store)
    (user_id user_number : Z) :
  room_ok chat_id st →
  ∃ st' b,
    user_disconnect chat_id user_id user_number st = (st', Py.Return b)
    ∧ (b = true ↔ online chat_id st user_id)
    ∧ ¬ online chat_id st' user_id
    ∧ (∀ other, other ≠ user_id →
         (online chat_id st' other ↔ online chat_id st other))
    ∧ (∀ s, online_map chat_id st !! s ≠ Some (Py.str user_id) →
         online_map chat_id st' !! s = online_map chat_id st !! s
         ∧ liveness chat_id st' s = liveness chat_id st s)
    ∧ (∀ s, online_map chat_id st !! s = Some (Py.str user_id) →
         online_map chat_id st' !! s = None ∧ liveness chat_id st' s = None).
Proof.
  intros H. destruct (decide (online_map chat_id st = ∅)) as [He|Hne].
  - rewrite (PresenceFacts.user_disconnect_empty chat_id st user_id user_number H He).
    exists st, false. unfold online. rewrite He. split; [done|]. split_and!.
    + split; [done|]. intros [s Hs]. by rewrite lookup_empty in Hs.
    + intros [s Hs]. by rewrite lookup_empty in Hs.
    + done.
    + done.
    + intros s Hs. by rewrite lookup_empty in Hs.
  - destruct (PresenceFacts.user_disconnect_nonempty chat_id st user_id user_number
                H Hne) as (st' & b & E & _ & Hb & M & L & _).
    exists st', b. split; [exact E|]. split; [exact Hb|]. split_and!.
    + intros [s Hs]. rewrite M in Hs. by destruct (decide _).
    + intros other Ho. unfold online. split; intros [s Hs]; exists s.
      * rewrite M in Hs. by destruct (decide _).
      * rewrite M. destruct (decide _) as [Hd|Hd]; [|done].
        rewrite Hs in Hd. injection Hd as Hd. by apply PyFacts.str_inj in Hd.
    + intros s Hs. rewrite M, L. by rewrite !decide_False by done.
    + intros s Hs. rewrite M, L. by rewrite !decide_True by done.
Qed.

Lemma user_disconnect_takes_user_offline_witness :
  room_ok 7 room_two
  ∧ ∃ st' b,
      user_disconnect 7 42 3 room_two = (st', Py.Return b)
      ∧ (b = true ↔ online 7 room_two 42)
      ∧ ¬ online 7 st' 42.
Proof.
  assert (room_ok 7 room_two) as H
    by (apply (bool_decide_eq_true_1 (room_ok 7 room_two)); vm_compute; reflexivity).
  split; [exact H|].
  destruct (user_disconnect_takes_user_offline 7 room_two 42 3 H)
    as (st' & b & E & Hb & Hoff & _).
  exists st', b. split; [exact E|]. split; [exact Hb|exact Hoff].
Defined.

(** X17.  Every method of the class, and the passing of time, keeps a room's
    keys holding what the class writes: the online key a hash of user ids
    written by [str], the typing key a set, each session key a string, the
    metadata queue a hash. *)
Theorem every_method_keeps_the_room_invariant (chat_id : Z) (st : store) :
  room_ok chat_id st →
  (∀ socket_id session_id user_id last_online,
     room_ok chat_id
       (socket_join chat_id socket_id session_id user_id last_online st).1)
  ∧ (∀ socket_id, room_ok chat_id (socket_ping chat_id socket_id st).1)
  ∧ (∀ socket_id user_number,
       room_ok chat_id (socket_disconnect chat_id socket_id user_number st).1)
  ∧ (∀ user_id user_number,
       room_ok chat_id (user_disconnect chat_id user_id user_number st).1)
  ∧ (∀ user_number, room_ok chat_id (user_start_typing chat_id user_number st).1)
  ∧ (∀ user_number, room_ok chat_id (user_stop_typing chat_id user_number st).1)
  ∧ room_ok chat_id (inconsistent_entries chat_id st).1
  ∧ (∀ seconds, room_ok chat_id (elapse seconds st)).
Proof. apply PresenceFacts.room_ok_invariant. Qed.

Lemma every_method_keeps_the_room_invariant_witness :
  room_ok 7 room_two
  ∧ room_ok 7 (socket_disconnect 7 "h1" 3 room_two).1
  ∧ room_ok 7 (user_disconnect 7 42 3 room_two).1
  ∧ room_ok 7 (elapse 30 room_two).
Proof.
  assert (room_ok 7 room_two) as H
    by (apply (bool_decide_eq_true_1 (room_ok 7 room_two)); vm_compute; reflexivity).
  split; [exact H|].
  destruct (every_method_keeps_the_room_invariant 7 room_two H)
    as (_ & _ & Hd & Hu & _ & _ & _ & He).
  split; [exact (Hd "h1" 3)|]. split; [exact (Hu 42 3)|exact (He 30%nat)].
Defined.

(** X18.  [socket_ping] touches one key at most: in a room whose keys hold
    what the class writes, every key other than the socket's session key is
    as before, the session id held by that key is as before, and a ping never
    creates a liveness record. *)
Theorem socket_ping_touches_only_the_expiry (chat_id : Z) (st : store)
    (socket_id : string) :
  room_ok chat_id st →
  let st' := (socket_ping chat_id socket_id st).1 in
  same_elsewhere (session_key chat_id socket_id) st st'
  ∧ session_of chat_id st' socket_id = session_of chat_id st socket_id
  ∧ (liveness chat_id st socket_id = None → liveness chat_id st' socket_id = None).
Proof.
  intros H st'. unfold st'.
  rewrite (PresenceFacts.socket_ping_eq chat_id st socket_id H).
  destruct (online_map chat_id st !! socket_id) as [u|]; [|by simpl; split_and!].
  unfold session_of.
  destruct (liveness chat_id st socket_id) as [[v t]|] eqn:El;
    [|by simpl; rewrite El; split_and!].
  simpl. split_and!.
  - apply PresenceFacts.same_elsewhere_insert.
  - unfold liveness. by rewrite lookup_insert_eq.
  - done.
Qed.

Lemma socket_ping_touches_only_the_expiry_witness :
  let st' := (socket_ping 7 "h1" room_two).1 in
  same_elsewhere (session_key 7 "h1") room_two st'
  ∧ session_of 7 st' "h1" = session_of 7 room_two "h1".
Proof.
  intros st'.
  destruct (socket_ping_touches_only_the_expiry 7 room_two "h1") as (Hs & He & _).
  - apply (bool_decide_eq_true_1 (room_ok 7 room_two)); vm_compute; reflexivity.
  - split; [exact Hs|exact He].
Defined.

(** X19.  Reaping one finding removes that finding and no other: in a room
    whose keys hold what the class writes, the pairs that
    [inconsistent_entries] lists after [socket_disconnect] of a socket are the
    pairs it listed before, less those of that socket. *)
Theorem socket_disconnect_clears_its_finding (chat_id : Z) (st : store)
    (socket_id : string) (user_number : Z) :
  room_ok chat_id st →
  let st' := (socket_disconnect chat_id socket_id user_number st).1 in
  ∃ l l',
    inconsistent_entries chat_id st = (st, Py.Return l)
    ∧ inconsistent_entries chat_id st' = (st', Py.Return l')
    ∧ ∀ s user_id, (s, user_id) ∈ l' ↔ (s, user_id) ∈ l ∧ s ≠ socket_id.
Proof.
  intros H st'. unfold st'.
  destruct (PresenceFacts.socket_disconnect_eq chat_id st socket_id user_number H)
    as (st2 & -> & H2 & M2 & _ & L2 & Lo).
  simpl.
  destruct (PresenceFacts.inconsistent_entries_eq chat_id st H) as (l & E & _ & Hl).
  destruct (PresenceFacts.inconsistent_entries_eq chat_id st2 H2) as (l' & E' & _ & Hl').
  exists l, l'. split; [exact E|]. split; [exact E'|].
  intros s n. rewrite Hl, Hl', M2.
  destruct (decide (s = socket_id)) as [->|Hs].
  - rewrite lookup_delete_eq. naive_solver.
  - rewrite lookup_delete_ne by done. rewrite (Lo s Hs). naive_solver.
Qed.

Lemma socket_disconnect_clears_its_finding_witness :
  let st' := (socket_disconnect 7 "h1" 3 room_stale).1 in
  ∃ l l',
    inconsistent_entries 7 room_stale = (room_stale, Py.Return l)
    ∧ inconsistent_entries 7 st' = (st', Py.Return l')
    ∧ ∀ s user_id, (s, user_id) ∈ l' ↔ (s, user_id) ∈ l ∧ s ≠ "h1".
Proof.
  intros st'.
  apply (socket_disconnect_clears_its_finding 7 room_stale "h1" 3).
  apply (bool_decide_eq_true_1 (room_ok 7 room_stale)); vm_compute; reflexivity.
Defined.

(** ** [scan_active_chats] *)

Module ScanFacts.
Import Redis UserListStore KeyFacts.

(** *** Slices of a key *)

Lemma length_append (a b : string) :
  String.length (a +:+ b) = (String.length a + String.length b)%nat.
Proof.
  induction a as [|c a IH]; [done|].
  change (String c a +:+ b) with (String c (a +:+ b)). simpl. by rewrite IH.
Qed.

Lemma substring_whole (b : string) : String.substring 0 (String.length b) b = b.
Proof. induction b as [|c b IH]; [done|]. simpl. by rewrite IH. Qed.

Lemma substring_head (a b : string) :
  String.substring 0 (String.length a) (a +:+ b) = a.
Proof.
  induction a as [|c a IH]; [by destruct b|].
  change (String c a +:+ b) with (String c (a +:+ b)). simpl. by rewrite IH.
Qed.

Lemma substring_tail (a b : string) n :
  String.substring (String.length a) n (a +:+ b) = String.substring 0 n b.
Proof.
  induction a as [|c a IH]; [done|].
  change (String c a +:+ b) with (String c (a +:+ b)). simpl. by rewrite IH.
Qed.

(** A key ["chat:" .. m .. ":online"] matches the glob, and its slice
    [[5:-7]] is [m]. *)
Lemma chat_online_key (m : string) :
  let k := "chat:" +:+ m +:+ ":online" in
  matches_chat_online k = true
  ∧ String.substring 5 (String.length k - 12) k = m.
Proof.
  intros k. unfold k, matches_chat_online.
  assert (String.length ("chat:" +:+ m +:+ ":online") = (String.length m + 12)%nat) as El.
  { rewrite !length_append. simpl. lia. }
  rewrite El. split.
  - apply andb_true_intro. split; [apply andb_true_intro; split|].
    + apply Nat.leb_le. lia.
    + apply prefix_app.
    + replace (String.length m + 12 - 7)%nat
        with (String.length ("chat:" +:+ m)) by (rewrite length_append; simpl; lia).
      rewrite <- append_assoc, substring_tail. apply String.eqb_refl.
  - replace (String.length m + 12 - 12)%nat with (String.length m) by lia.
    change ("chat:" +:+ m +:+ ":online")
      with (String "c" (String "h" (String "a" (String "t" (String ":"
              (m +:+ ":online")))))).
    simpl. apply substring_head.
Qed.

Lemma session_key_as_chat_online chat_id s :
  session_key chat_id (s +:+ ":online")
  = "chat:" +:+ (Py.str chat_id +:+ ":online:" +:+ s) +:+ ":online".
Proof. unfold session_key. by rewrite !append_assoc. Qed.

(** *** [int] refuses a string with a colon *)

Lemma uint_colon (a b : string) :
  NilEmpty.uint_of_string (a +:+ ":" +:+ b) = None.
Proof.
  induction a as [|c a IH].
  - change ("" +:+ ":" +:+ b) with (String ":" b). simpl.
    by destruct (NilEmpty.uint_of_string b).
  - change (String c a +:+ ":" +:+ b) with (String c (a +:+ ":" +:+ b)). simpl.
    by rewrite IH.
Qed.

Lemma int_colon (a b : string) : Py.int (a +:+ ":" +:+ b) = None.
Proof.
  unfold Py.int. destruct a as [|c a].
  - change ("" +:+ ":" +:+ b) with (String ":" b). simpl.
    by destruct (NilEmpty.uint_of_string b).
  - change (String c a +:+ ":" +:+ b) with (String c (a +:+ ":" +:+ b)).
    pose proof (uint_colon a b) as Ha.
    pose proof (uint_colon (String c a) b) as Hca.
    change (String c a +:+ ":" +:+ b) with (String c (a +:+ ":" +:+ b)) in Hca.
    unfold NilZero.int_of_string, NilZero.uint_of_string.
    destruct (Ascii.eqb c "-").
    + destruct (a +:+ ":" +:+ b); [done|]. by rewrite Ha.
    + by rewrite Hca.
Qed.

(** *** The generator *)

Lemma yield_ints_app (a b : list string) :
  yield_ints (a ++ b)
  = match yield_ints a with
    | (ys, Some e) => (ys, Some e)
    | (ys, None) => let '(ys', e) := yield_ints b in ((ys ++ ys')%list, e)
    end.
Proof.
  induction a as [|k a IH]; simpl.
  - by destruct (yield_ints b).
  - destruct (Py.int _) as [n|]; [|done]. rewrite IH.
    destruct (yield_ints a) as [ys [e|]]; [done|]. by destruct (yield_ints b).
Qed.

Lemma online_key_matches (n : Z) : matches_chat_online (online_key n) = true.
Proof. apply (proj1 (chat_online_key (Py.str n))). Qed.

Lemma online_key_slice (n : Z) :
  String.substring 5 (String.length (online_key n) - 12) (online_key n) = Py.str n.
Proof. apply (proj2 (chat_online_key (Py.str n))). Qed.

Lemma yield_ints_cons (k : string) (l : list string) :
  yield_ints (k :: l)
  = match Py.int (String.substring 5 (String.length k - 12) k) with
    | None => ([], Some Py.ValueError)
    | Some n => let '(ys, e) := yield_ints l in (n :: ys, e)
    end.
Proof. done. Qed.

Lemma yield_ints_online (l : list string) :
  Forall (λ k, ∃ n, k = online_key n) l →
  ∃ ns, yield_ints l = (ns, None) ∧ l = online_key <$> ns.
Proof.
  induction 1 as [|k l [n ->] _ (ns & IH & ->)]; [by exists []|].
  rewrite yield_ints_cons, online_key_slice, PyFacts.int_str, IH.
  by exists (n :: ns).
Qed.

Lemma yield_ints_refused (l : list string) (k : string) :
  k ∈ l →
  Py.int (String.substring 5 (String.length k - 12) k) = None →
  ∃ ys, yield_ints l = (ys, Some Py.ValueError).
Proof.
  intros Hin Hk. induction l as [|k' l IH]; [by apply elem_of_nil in Hin|].
  rewrite yield_ints_cons. destruct (Py.int (String.substring 5 (String.length k' - 12) k'))
    as [n|] eqn:E; [|by eexists].
  apply elem_of_cons in Hin as [->|Hin]; [congruence|].
  destruct (IH Hin) as [ys ->]. by eexists.
Qed.

(** The loop ends, whatever the batch size, and has then walked every key. *)
Lemma scan_loop_run (count : nat) (st : store) :
  (1 ≤ count)%nat →
  ∀ fuel cursor,
    (length (map_to_list st).*1 - cursor < fuel)%nat →
    scan_active_chats_loop fuel count cursor st
    = Some (yield_ints (filter (λ k, matches_chat_online k = true)
                          (drop cursor (map_to_list st).*1))).
Proof.
  intros Hc. set (keys := (map_to_list st).*1).
  induction fuel as [|fuel IH]; intros cursor Hf; [lia|].
  simpl. fold keys.
  rewrite <- (take_drop count (drop cursor keys)) at 2.
  rewrite drop_drop, filter_app, yield_ints_app.
  destruct (yield_ints (filter _ (take count (drop cursor keys)))) as [ys [e|]];
    [done|].
  destruct (decide (cursor + count < length keys)%nat) as [Hn|Hn].
  - replace (Nat.eqb (cursor + count) 0) with false
      by (symmetry; apply Nat.eqb_neq; lia).
    rewrite IH by lia. by destruct (yield_ints _).
  - simpl. rewrite drop_ge by lia. simpl. by rewrite app_nil_r.
Qed.

Lemma elem_of_keys (st : store) (k : string) :
  k ∈ (map_to_list st).*1 ↔ is_Some (st !! k).
Proof.
  rewrite list_elem_of_fmap. split.
  - intros ([k' e] & -> & H%elem_of_map_to_list). by exists e.
  - intros [e H]. exists (k, e). split; [done|]. by apply elem_of_map_to_list.
Qed.

Lemma online_key_inj (m n : Z) : online_key m = online_key n → m = n.
Proof.
  intros H. apply PyFacts.str_inj.
  by rewrite <- (online_key_slice m), <- (online_key_slice n), H.
Qed.

End ScanFacts.

(** X20.  [scan_active_chats] lists the chats that have an online map: on a
    keyspace that no one changes meanwhile, whatever the size of the batches,
    when the only keys that match ["chat:*:online"] are online keys, the
    generator ends without an exception after yielding exactly the ids of the
    chats whose online key is set. *)
Theorem scan_active_chats_lists_online_chats (fuel count : nat) (st : store) :
  (1 ≤ count)%nat →
  (size st < fuel)%nat →
  (∀ k, is_Some (st !! k) → matches_chat_online k = true →
        ∃ chat_id, k = online_key chat_id) →
  ∃ l, scan_active_chats fuel count st = Some (l, None)
    ∧ ∀ chat_id, chat_id ∈ l ↔ is_Some (st !! online_key chat_id).
Proof.
  intros Hc Hf Hkeys. unfold scan_active_chats.
  rewrite (ScanFacts.scan_loop_run count st Hc)
    by (rewrite length_fmap, length_map_to_list; lia).
  rewrite drop_0.
  destruct (ScanFacts.yield_ints_online
              (filter (λ k, matches_chat_online k = true) (map_to_list st).*1))
    as (ns & -> & Hl).
  { apply Forall_forall. intros k [Hm Hk%ScanFacts.elem_of_keys]%list_elem_of_filter.
    by apply Hkeys. }
  exists ns. split; [done|]. intros n. split.
  - intros Hn. apply ScanFacts.elem_of_keys.
    apply (list_elem_of_fmap_2 online_key) in Hn. rewrite <- Hl in Hn.
    by apply list_elem_of_filter in Hn as [_ Hn].
  - intros Hn%ScanFacts.elem_of_keys.
    assert (online_key n ∈ online_key <$> ns) as Hin.
    { rewrite <- Hl. apply list_elem_of_filter. split; [|done].
      apply ScanFacts.online_key_matches. }
    apply list_elem_of_fmap in Hin as (n' & E & Hin).
    by apply ScanFacts.online_key_inj in E as ->.
Qed.

Lemma scan_active_chats_lists_online_chats_witness :
  ∃ l, scan_active_chats 5 2 room_two = Some (l, None)
    ∧ ∀ chat_id, chat_id ∈ l ↔ is_Some (room_two !! online_key chat_id).
Proof.
  apply (scan_active_chats_lists_online_chats 5 2 room_two).
  - lia.
  - vm_compute. lia.
  - assert (map_Forall
              (λ k _, matches_chat_online k = true → k = online_key 7) room_two) as Hall
      by (apply (bool_decide_eq_true_1 (map_Forall _ _)); vm_compute; reflexivity).
    intros k [e He] Hm. exists 7. exact (Hall k e He Hm).
Defined.

(** X21.  A socket id that ends in [":online"] breaks [scan_active_chats]: the
    session key of such a socket matches ["chat:*:online"] as well, its slice
    [[5:-7]] is not a number, and the generator ends with [ValueError],
    whatever the size of the batches. *)
Theorem scan_active_chats_raises_on_session_key (fuel count : nat) (st : store)
    (chat_id : Z) (socket_id : string) :
  (1 ≤ count)%nat →
  (size st < fuel)%nat →
  is_Some (st !! session_key chat_id (socket_id +:+ ":online")) →
  ∃ ys, scan_active_chats fuel count st = Some (ys, Some Py.ValueError).
Proof.
  intros Hc Hf Hk. unfold scan_active_chats.
  rewrite (ScanFacts.scan_loop_run count st Hc)
    by (rewrite length_fmap, length_map_to_list; lia).
  rewrite drop_0.
  destruct (ScanFacts.chat_online_key (Py.str chat_id +:+ ":online:" +:+ socket_id))
    as [Hm Hs].
  rewrite <- ScanFacts.session_key_as_chat_online in Hm, Hs.
  destruct (ScanFacts.yield_ints_refused
              (filter (λ k, matches_chat_online k = true) (map_to_list st).*1)
              (session_key chat_id (socket_id +:+ ":online"))) as [ys ->].
  - apply list_elem_of_filter. split; [done|]. by apply ScanFacts.elem_of_keys.
  - rewrite Hs.
    change (Py.str chat_id +:+ ":online:" +:+ socket_id)
      with (Py.str chat_id +:+ ":" +:+ ("online:" +:+ socket_id)).
    apply ScanFacts.int_colon.
  - by exists ys.
Qed.

Lemma scan_active_chats_raises_on_session_key_witness :
  let st := (socket_join 7 "tab:online" "sess-a" 42 "{}" ∅).1 in
  ∃ ys, scan_active_chats 5 2 st = Some (ys, Some Py.ValueError).
Proof.
  intros st.
  apply (scan_active_chats_raises_on_session_key 5 2 st 7 "tab").
  - lia.
  - vm_compute. lia.
  - eexists. vm_compute. reflexivity.
Defined.

(** X22.  When the online key of the chat holds something other than a hash,
    every method that reads the online map raises [ResponseError].  The
    scripts and the plain reads leave the keyspace as it was; the two
    pipelines do not: [socket_join] has still written the socket's liveness
    record, and [socket_disconnect] has still deleted it. *)
Theorem online_key_of_wrong_type (chat_id : Z) (st : store)
    (socket_id session_id : string) (user_id user_number : Z) (last_online : string) :
  hash_or_unset (online_key chat_id) st = false →
  let joined := socket_join chat_id socket_id session_id user_id last_online st in
  let left := socket_disconnect chat_id socket_id user_number st in
  joined.2 = Py.Raise Py.ResponseError
  ∧ liveness chat_id joined.1 socket_id
    = Some (Entry (RString session_id) (Some 30%nat))
  ∧ left.2 = Py.Raise Py.ResponseError
  ∧ liveness chat_id left.1 socket_id = None
  ∧ socket_ping chat_id socket_id st = (st, Py.Raise Py.ResponseError)
  ∧ user_disconnect chat_id user_id user_number st = (st, Py.Raise Py.ResponseError)
  ∧ user_ids_online chat_id st = (st, Py.Raise Py.ResponseError)
  ∧ session_has_open_socket chat_id session_id user_id st
    = (st, Py.Raise Py.ResponseError)
  ∧ inconsistent_entries chat_id st = (st, Py.Raise Py.ResponseError).
Proof.
  intros Hw joined left. unfold hash_or_unset in Hw.
  destruct (st !! online_key chat_id) as [[v t]|] eqn:Ek; [|done].
  assert (∀ h, v ≠ RHash h) as Hv by (intros h ->; done).
  assert (HVALS (online_key chat_id) st = (st, Err WrongType)) as Ehv.
  { unfold HVALS. rewrite Ek. destruct v as [?|h|?]; try done; by destruct (Hv h). }
  assert (HGET (online_key chat_id) socket_id st = (st, Err WrongType)) as Ehg.
  { unfold HGET. rewrite Ek. destruct v as [?|h|?]; try done; by destruct (Hv h). }
  assert (HGETALL (online_key chat_id) st = (st, Err WrongType)) as Eha.
  { unfold HGETALL. rewrite Ek. destruct v as [?|h|?]; try done; by destruct (Hv h). }
  split_and!.
  - unfold joined, socket_join. rewrite Ehv.
    destruct (HSET "queue:usermeta" _ _ st) as [st2 r1].
    destruct (HSET (online_key chat_id) _ _ st2) as [st3 r2]. done.
  - unfold joined, socket_join. rewrite Ehv.
    destruct (HSET "queue:usermeta" _ _ st) as [st2 r1].
    destruct (HSET (online_key chat_id) _ _ st2) as [st3 r2]. simpl.
    unfold liveness. apply lookup_insert_eq.
  - unfold left, socket_disconnect. rewrite Ehg.
    destruct (HDEL (online_key chat_id) socket_id st) as [st2 r1].
    rewrite PresenceFacts.DEL_one.
    destruct (SREM (typing_key chat_id) _ _) as [st4 r3].
    by destruct (HVALS (online_key chat_id) st4) as [st5 r4].
  - unfold left, socket_disconnect. rewrite Ehg.
    destruct (HDEL (online_key chat_id) socket_id st) as [st2 r1].
    rewrite PresenceFacts.DEL_one.
    assert (∀ st0, (SREM (typing_key chat_id) (Py.str user_number) st0).1
                     !! session_key chat_id socket_id
                   = st0 !! session_key chat_id socket_id) as Hsrem.
    { intros st0. unfold SREM.
      destruct (st0 !! typing_key chat_id) as [[[?|?|s] t0]|]; try done.
      destruct (decide (_ ∈ s)); [|done]. simpl.
      destruct (decide (_ = ∅)).
      - apply lookup_delete_ne. intros E. symmetry in E.
        by apply KeyFacts.session_ne_typing in E.
      - apply lookup_insert_ne. intros E. symmetry in E.
        by apply KeyFacts.session_ne_typing in E. }
    specialize (Hsrem (delete (session_key chat_id socket_id) st2)).
    destruct (SREM (typing_key chat_id) _ _) as [st4 r3]. simpl in Hsrem.
    assert ((HVALS (online_key chat_id) st4).1 = st4) as Ehv4.
    { unfold HVALS. by destruct (st4 !! online_key chat_id) as [[[] ?]|]. }
    destruct (HVALS (online_key chat_id) st4) as [st5 r4]. simpl in *. subst st5.
    unfold liveness. rewrite Hsrem. apply lookup_delete_eq.
  - unfold socket_ping, eval, socket_ping_script, bind.
    fold (online_key chat_id). by rewrite Ehg.
  - unfold user_disconnect, eval, user_disconnect_script, bind.
    fold (online_key chat_id). by rewrite Eha.
  - unfold user_ids_online. by rewrite Ehv.
  - unfold session_has_open_socket, eval, session_has_open_socket_script, bind.
    fold (online_key chat_id). by rewrite Eha.
  - unfold inconsistent_entries, eval, inconsistent_entries_script, bind.
    fold (online_key chat_id). by rewrite Eha.
Qed.

Lemma online_key_of_wrong_type_witness :
  let st : store := {[ online_key 7 := Entry (RSet {[ "42" ]}) None ]} in
  (socket_join 7 "h1" "sess-a" 42 "{}" st).2 = Py.Raise Py.ResponseError
  ∧ liveness 7 (socket_join 7 "h1" "sess-a" 42 "{}" st).1 "h1"
    = Some (Entry (RString "sess-a") (Some 30%nat)).
Proof.
  intros st.
  destruct (online_key_of_wrong_type 7 st "h1" "sess-a" 42 3 "{}") as (E & L & _).
  - vm_compute. reflexivity.
  - split; [exact E|exact L].
Defined.
